(** * ac_dc/oscar_sample_filter.py: the OSCAR sentence transformer and filter

    A shallow embedding of [load_parameters], [ModifyingSentences],
    [OscarModifyingSentences], [Filtering] and [FuncOscarFiltering], the
    properties of them that the specification states, and further
    properties read off the code.

    Modelling conventions.
    - A Python [str] is a [string]; its characters are the 256 code points
      of [ascii], read as U+0000..U+00FF.  [len] is [String.length].
    - A Python [set] of strings is a [gset string]; [None] is the [None] of
      [option]; truthiness ([if x:]) is written out ([truthy_set]).
    - A Python [float] is a type [F] with the operations of [PyFloat]; what
      raises in Python ([ZeroDivisionError], [IndexError], [KeyError],
      [AttributeError], [OverflowError]) is an [outcome] whose constructor
      [Raise] carries the exception.
    - The imported tables [langs_id] and [parameters_filtering] and the
      fastText and KenLM models are arguments. *)

From Stdlib Require Import Reals Lra Ascii String ZArith.
From stdpp Require Import gmap strings list fin_maps.

Open Scope string_scope.

(** ** Python string primitives *)

Module PyStr.

(** [c.isspace()] on U+0000..U+00FF: TAB..CR, FS..US, SPACE, NEL, NBSP. *)
Definition isspace (c : ascii) : bool :=
  let n := N_of_ascii c in
  ((9 <=? n) && (n <=? 13) || (28 <=? n) && (n <=? 32)
   || (n =? 133) || (n =? 160))%N.

(** [c.lower()] on U+0000..U+00FF: A..Z and the Latin-1 capitals
    U+00C0..U+00DE (without the multiplication sign U+00D7). *)
Definition lower_char (c : ascii) : ascii :=
  let n := N_of_ascii c in
  if ((65 <=? n) && (n <=? 90)
      || (192 <=? n) && (n <=? 222) && negb (n =? 215))%N
  then ascii_of_N (n + 32) else c.

Fixpoint lower (s : string) : string :=
  match s with
  | "" => ""
  | String c s' => String (lower_char c) (lower s')
  end.

Fixpoint lstrip_by (p : ascii → bool) (s : string) : string :=
  match s with
  | "" => ""
  | String c s' => if p c then lstrip_by p s' else s
  end.

Definition rstrip_by (p : ascii → bool) (s : string) : string :=
  String.rev (lstrip_by p (String.rev s)).

Definition strip_by (p : ascii → bool) (s : string) : string :=
  rstrip_by p (lstrip_by p s).

(** [s.strip()] *)
Definition strip (s : string) : string := strip_by isspace s.

(** [c in chars] for a character [c] *)
Fixpoint mem_char (c : ascii) (chars : string) : bool :=
  match chars with
  | "" => false
  | String d chars' => Ascii.eqb c d || mem_char c chars'
  end.

(** [s.strip(chars)] *)
Definition strip_chars (chars : string) (s : string) : string :=
  strip_by (λ c, mem_char c chars) s.

(** [s.split(sep)] for a separator of one character.  The result is
    never empty: [split sep "" = [""]]. *)
Fixpoint split (sep : ascii) (s : string) : list string :=
  match s with
  | "" => [""]
  | String c s' =>
      if Ascii.eqb c sep then "" :: split sep s'
      else match split sep s' with
           | w :: ws => String c w :: ws
           | [] => [String c ""]
           end
  end.

(** [sep.join(ws)] *)
Fixpoint join (sep : string) (ws : list string) : string :=
  match ws with
  | [] => ""
  | [w] => w
  | w :: ws' => w +:+ sep +:+ join sep ws'
  end.

(** [sub in s] *)
Fixpoint contains (sub s : string) : bool :=
  String.prefix sub s
  || match s with
     | "" => false
     | String _ s' => contains sub s'
     end.

(** [s.split()]: the maximal runs of non-whitespace characters. *)
Fixpoint split_whitespace (s : string) : list string :=
  match s with
  | "" => []
  | String c s' =>
      if isspace c then split_whitespace s'
      else match s' with
           | "" => [String c ""]
           | String c' _ =>
               if isspace c' then String c "" :: split_whitespace s'
               else match split_whitespace s' with
                    | w :: ws => String c w :: ws
                    | [] => [String c ""]
                    end
           end
  end.

(** [s.replace(old, new)], scanning left to right; [skip] counts the
    characters of a match of [old] still to be dropped. *)
Fixpoint replace_go (old new : string) (skip : nat) (s : string) : string :=
  match s with
  | "" => ""
  | String c s' =>
      match skip with
      | S k => replace_go old new k s'
      | O =>
          if String.prefix old s
          then new +:+ replace_go old new (String.length old - 1) s'
          else String c (replace_go old new 0 s')
      end
  end.

Fixpoint intersperse (new s : string) : string :=
  match s with
  | "" => new
  | String c s' => new +:+ String c (intersperse new s')
  end.

Definition replace (old new s : string) : string :=
  match old with
  | "" => intersperse new s
  | _ => replace_go old new 0 s
  end.

Definition space : ascii := " "%char.
Definition newline : ascii := ascii_of_N 10.

End PyStr.

(** ** Python values, exceptions and floats *)

Inductive exn : Type :=
  | ZeroDivisionError
  | IndexError
  | KeyError
  | AttributeError
  | OverflowError.

(** The result of evaluating a Python expression: a value or a raised
    exception. *)
Inductive outcome (A : Type) : Type :=
  | Ret (a : A)
  | Raise (e : exn).
Arguments Ret {A} a.
Arguments Raise {A} e.

#[export] Instance outcome_bind : MBind outcome := λ A B f o,
  match o with
  | Ret a => f a
  | Raise e => Raise e
  end.

(** The float operations the program uses.  [int_truediv a b] is [a / b]
    on two ints, [float_of_int] the conversion of an int operand, [fpow10 x]
    is [10.0 ** x], which is [None] where Python raises [OverflowError]
    (the power is beyond the range of a float), [flt x y] is [x < y]
    ([x > y] is [flt y x]). *)
Class PyFloat (F : Type) : Type := {
  int_truediv : Z → Z → F;
  float_of_int : Z → F;
  fadd : F → F → F;
  fneg : F → F;
  fdiv : F → F → F;
  fpow10 : F → option F;
  flt : F → F → bool
}.

(** Ideal arithmetic: the operations on the real numbers, where no power
    overflows. *)
Definition Rltb (x y : R) : bool := if Rlt_dec x y then true else false.

#[export] Instance R_PyFloat : PyFloat R := {|
  int_truediv a b := (IZR a / IZR b)%R;
  float_of_int := IZR;
  fadd := Rplus;
  fneg := Ropp;
  fdiv := Rdiv;
  fpow10 x := Some (Rpower 10 x);
  flt := Rltb
|}.

(** The largest binary64 number, [(2 - 2 ** -52) * 2 ** 1023]. *)
Definition max_binary64 : R := IZR (2 ^ 1024 - 2 ^ 971).

(** Real arithmetic with the range of binary64: as [R_PyFloat], but
    [10.0 ** x] overflows when the power is above the largest binary64
    number. *)
Definition R_ranged_PyFloat : PyFloat R := {|
  int_truediv a b := (IZR a / IZR b)%R;
  float_of_int := IZR;
  fadd := Rplus;
  fneg := Ropp;
  fdiv := Rdiv;
  fpow10 x :=
    if Rle_dec (Rpower 10 x) max_binary64 then Some (Rpower 10 x) else None;
  flt := Rltb
|}.

(** [10.0 ** x] *)
Definition float_pow10 {F} `{PyFloat F} (x : F) : outcome F :=
  match fpow10 x with
  | Some power => Ret power
  | None => Raise OverflowError
  end.

(** [len(a) / len(b)]: true division of two lengths. *)
Definition len_truediv {F} `{PyFloat F} (a b : nat) : outcome F :=
  if Nat.eqb b 0 then Raise ZeroDivisionError
  else Ret (int_truediv (Z.of_nat a) (Z.of_nat b)).

(** [x / n] for a float [x] and an int [n]. *)
Definition float_div_int {F} `{PyFloat F} (x : F) (n : Z) : outcome F :=
  if Z.eqb n 0 then Raise ZeroDivisionError
  else Ret (fdiv x (float_of_int n)).

(** [if s:] for a set [s]: an empty set is false.  ([None] is false too;
    it is the [None] branch of the [match] at each use.) *)
Definition truthy_set (s : gset string) : bool := bool_decide (s ≠ ∅).

(** A field of a dataset record: OSCAR has an int [id] and a str [text]. *)
Inductive value : Type :=
  | VStr (s : string)
  | VInt (z : Z).

(** ** The parameter table (module [parameters_filtering], an argument) *)

Record Param (F : Type) : Type := {
  cond_remove_words_with_incorrect_substrings : bool;
  incorrect_word_substrings : list string;
  cond_remove_long_words : bool;
  length_word_cutoff : Z;
  cond_check_empty : bool;
  strip_characters : string;
  cond_check_special_characters : bool;
  special_characters : string;
  special_characters_cutoff : F;
  cond_check_stopwords : bool;
  stopwords_min_cutoff : F;
  stopwords_max_cutoff : F;
  cond_check_badwords : bool;
  badwords_cutoff : F;
  cond_check_lang_id : bool;
  lang_id_cutoff : F;
  cond_check_perplexity : bool;
  perplexity_cutoff : F
}.
Arguments cond_remove_words_with_incorrect_substrings {F} _.
Arguments incorrect_word_substrings {F} _.
Arguments cond_remove_long_words {F} _.
Arguments length_word_cutoff {F} _.
Arguments cond_check_empty {F} _.
Arguments strip_characters {F} _.
Arguments cond_check_special_characters {F} _.
Arguments special_characters {F} _.
Arguments special_characters_cutoff {F} _.
Arguments cond_check_stopwords {F} _.
Arguments stopwords_min_cutoff {F} _.
Arguments stopwords_max_cutoff {F} _.
Arguments cond_check_badwords {F} _.
Arguments badwords_cutoff {F} _.
Arguments cond_check_lang_id {F} _.
Arguments lang_id_cutoff {F} _.
Arguments cond_check_perplexity {F} _.
Arguments perplexity_cutoff {F} _.

Definition load_parameters {F} (parameters_filtering : gmap string (Param F))
    (lang_oscar_id : string) : outcome (Param F) :=
  match parameters_filtering !! lang_oscar_id with
  | Some param => Ret param
  | None =>
      match parameters_filtering !! "default" with
      | Some param => Ret param
      | None => Raise KeyError
      end
  end.

(** ** class ModifyingSentences *)

Module ModifyingSentences.

Definition lower_strip_sentence (sentence : string) : string :=
  PyStr.strip (PyStr.lower sentence).

Definition get_words_from_sentence (sentence strip_characters : string)
    : list string :=
  let sent := lower_strip_sentence sentence in
  map (PyStr.strip_chars strip_characters) (PyStr.split PyStr.space sent).

(** [all([(i_substr not in word) for i_substr in incorrect_word_substrings])] *)
Definition no_incorrect_substring (incorrect_word_substrings : list string)
    (word : string) : bool :=
  forallb (λ i_substr, negb (PyStr.contains i_substr word))
          incorrect_word_substrings.

Definition remove_words_with_incorrect_substrings (sentence : string)
    (incorrect_word_substrings : list string) : string :=
  let words := PyStr.split PyStr.space sentence in
  let words :=
    List.filter (no_incorrect_substring incorrect_word_substrings) words in
  PyStr.join " " words.

(** [len(word) < length_word_cutoff] *)
Definition is_short (length_word_cutoff : Z) (word : string) : bool :=
  (Z.of_nat (String.length word) <? length_word_cutoff)%Z.

Definition remove_long_words (sentence : string) (length_word_cutoff : Z)
    : string :=
  let words := PyStr.split PyStr.space sentence in
  let words := List.filter (is_short length_word_cutoff) words in
  PyStr.join " " words.

Definition modifying_sentences (sentence : string)
    (cond_remove_words_with_incorrect_substrings : bool)
    (incorrect_word_substrings : list string)
    (cond_remove_long_words : bool)
    (length_word_cutoff : Z) : string :=
  let sentence :=
    if cond_remove_words_with_incorrect_substrings
    then remove_words_with_incorrect_substrings
           sentence incorrect_word_substrings
    else sentence in
  let sentence :=
    if cond_remove_long_words
    then remove_long_words sentence length_word_cutoff
    else sentence in
  sentence.

End ModifyingSentences.

(** ** class OscarModifyingSentences *)

Module OscarModifyingSentences.

Record t (F : Type) : Type := {
  lang_oscar_id : string;
  param : Param F
}.
Arguments lang_oscar_id {F} _.
Arguments param {F} _.

(** [__init__] *)
Definition init {F} (parameters_filtering : gmap string (Param F))
    (lang_oscar_id : string) : outcome (t F) :=
  param ← load_parameters parameters_filtering lang_oscar_id;
  Ret {| lang_oscar_id := lang_oscar_id; param := param |}.

(** [__call__]: [example["text"] = ...; return example].  The record is
    updated in place and returned; [example] below is its content before
    and the result its content after the call.  A [text] that is not a
    str has no [split]; it is only handed back when both passes are
    off. *)
Definition call {F} (self : t F) (example : gmap string value)
    : outcome (gmap string value) :=
  let p := param self in
  match example !! "text" with
  | None => Raise KeyError
  | Some (VStr sentence) =>
      Ret (<["text" :=
               VStr (ModifyingSentences.modifying_sentences
                       sentence
                       (cond_remove_words_with_incorrect_substrings p)
                       (incorrect_word_substrings p)
                       (cond_remove_long_words p)
                       (length_word_cutoff p))]> example)
  | Some v =>
      if cond_remove_words_with_incorrect_substrings p
         || cond_remove_long_words p
      then Raise AttributeError
      else Ret (<["text" := v]> example)
  end.

End OscarModifyingSentences.

(** ** External resources *)

(** One row of the table [langs_id] (module [languages_id]); only the two
    columns that [Filtering] reads.  An empty cell is [None]. *)
Record LangRow : Type := {
  oscar_id : string;
  fasttext_id : option string
}.

(** A fastText model: [predict(text)] restricted to its top label
    [pred[0][0]] and that label's probability [pred[1][0]]. *)
Record FastText (F : Type) : Type := {
  predict : string → string * F
}.
Arguments predict {F} _ _.

(** A KenLM model: [score(line)], a base-10 log probability. *)
Record KenLM (F : Type) : Type := {
  score : string → F
}.
Arguments score {F} _ _.

(** ** Tracing the calls of [Filtering.filtering] *)

(** The six checks, named after the methods [Filtering.check_*]. *)
Inductive check : Type :=
  | CheckEmpty
  | CheckSpecialCharacters
  | CheckStopwords
  | CheckBadwords
  | CheckLangId
  | CheckPerplexity.

(** A computation that calls checks: the checks called, in call order, and
    the outcome. *)
Definition traced (A : Type) : Type := (list check * outcome A)%type.

#[export] Instance traced_ret : MRet traced := λ A a, ([], Ret a).

#[export] Instance traced_bind : MBind traced := λ A B f m,
  match m with
  | (t, Ret a) => let '(t', o) := f a in ((t ++ t')%list, o)
  | (t, Raise e) => (t, Raise e)
  end.

(** The call of check [c], with the outcome of its body. *)
Definition call (c : check) (o : outcome bool) : traced bool := ([c], o).

(** [if cond: if not <check>: return False], then the rest of the body. *)
Definition unless_dropped (cond : bool) (checked rest : traced bool)
    : traced bool :=
  if cond
  then passed ← checked; if negb passed then mret false else rest
  else rest.

(** ** class Filtering *)

Module Filtering.
Section WithFloat.

Context {F : Type} `{PyFloat F}.

Definition check_empty (sentence strip_characters : string) : bool :=
  let sent := ModifyingSentences.lower_strip_sentence sentence in
  let words :=
    ModifyingSentences.get_words_from_sentence sentence strip_characters in
  Nat.ltb 0 (String.length sent) && Nat.ltb 0 (length words).

Definition check_special_characters (sentence special_characters : string)
    (special_characters_cutoff : F) : outcome bool :=
  let sent := ModifyingSentences.lower_strip_sentence sentence in
  special_characters_ratio ←
    len_truediv
      (length (List.filter (λ char, PyStr.mem_char char special_characters)
                           (list_ascii_of_string sent)))
      (String.length sent);
  Ret (flt special_characters_ratio special_characters_cutoff).

Definition check_stopwords (sentence strip_characters : string)
    (stopwords : option (gset string))
    (stopwords_min_cutoff stopwords_max_cutoff : F) : outcome bool :=
  match stopwords with
  | Some lexicon =>
      if truthy_set lexicon then
        let words :=
          ModifyingSentences.get_words_from_sentence
            sentence strip_characters in
        stopwords_ratio ←
          len_truediv
            (length (List.filter (λ word, bool_decide (word ∈ lexicon)) words))
            (length words);
        Ret (flt stopwords_min_cutoff stopwords_ratio
             && flt stopwords_ratio stopwords_max_cutoff)
      else Ret true
  | None => Ret true
  end.

Definition check_badwords (sentence strip_characters : string)
    (badwords : option (gset string)) (badwords_cutoff : F) : outcome bool :=
  match badwords with
  | Some lexicon =>
      if truthy_set lexicon then
        let words :=
          ModifyingSentences.get_words_from_sentence
            sentence strip_characters in
        badwords_ratio ←
          len_truediv
            (length (List.filter (λ word, bool_decide (word ∈ lexicon)) words))
            (length words);
        Ret (flt badwords_ratio badwords_cutoff)
      else Ret true
  | None => Ret true
  end.

(** [langs_id.loc[langs_id["fasttext_id"] == fid, "oscar_id"].iloc[0]] *)
Definition oscar_id_of_fasttext_id (langs_id : list LangRow) (fid : string)
    : outcome string :=
  match List.filter (λ row, bool_decide (fasttext_id row = Some fid))
                    langs_id with
  | row :: _ => Ret (oscar_id row)
  | [] => Raise IndexError
  end.

Definition check_lang_id (langs_id : list LangRow)
    (sentence strip_characters lang_oscar_id : string)
    (model_lang_id : option (FastText F)) (lang_id_cutoff : F)
    : outcome bool :=
  match model_lang_id with
  | Some model =>
      let words :=
        ModifyingSentences.get_words_from_sentence
          sentence strip_characters in
      let sent :=
        PyStr.replace (String PyStr.newline "") " " (PyStr.join " " words) in
      let pred := predict model sent in
      let lang_pred_fasttext_id := PyStr.replace "__label__" "" pred.1 in
      let score_pred := pred.2 in
      lang_pred_oscar_id ←
        oscar_id_of_fasttext_id langs_id lang_pred_fasttext_id;
      Ret (bool_decide (lang_pred_oscar_id = lang_oscar_id)
           && flt lang_id_cutoff score_pred)
  | None => Ret true
  end.

(** The loop of [get_perplexity_score]: one step per line, on the pair
    [(doc_log_score, doc_length)]. *)
Definition perplexity_step (kenlm_model : KenLM F) (acc : F * Z)
    (line : string) : F * Z :=
  let '(doc_log_score, doc_length) := acc in
  let log_score := score kenlm_model line in
  let length := (Z.of_nat (length (PyStr.split_whitespace line)) + 1)%Z in
  (fadd doc_log_score log_score, (doc_length + length)%Z).

Definition get_perplexity_score (sentence : string) (kenlm_model : KenLM F)
    : outcome F :=
  let '(doc_log_score, doc_length) :=
    fold_left (perplexity_step kenlm_model)
              (PyStr.split PyStr.newline sentence)
              (float_of_int 0, 0%Z) in
  exponent ← float_div_int (fneg doc_log_score) doc_length;
  float_pow10 exponent.

Definition check_perplexity (sentence : string)
    (kenlm_model : option (KenLM F)) (perplexity_cutoff : F) : outcome bool :=
  match kenlm_model with
  | Some model =>
      score ← get_perplexity_score sentence model;
      Ret (flt score perplexity_cutoff)
  | None => Ret true
  end.

Definition filtering (langs_id : list LangRow)
    (sentence : string)
    (cond_check_empty : bool)
    (strip_characters : string)
    (cond_check_special_characters : bool)
    (special_characters : string)
    (special_characters_cutoff : F)
    (cond_check_stopwords : bool)
    (stopwords : option (gset string))
    (stopwords_min_cutoff stopwords_max_cutoff : F)
    (cond_check_badwords : bool)
    (badwords : option (gset string))
    (badwords_cutoff : F)
    (cond_check_lang_id : bool)
    (lang_oscar_id : string)
    (model_lang_id : option (FastText F))
    (lang_id_cutoff : F)
    (cond_check_perplexity : bool)
    (kenlm_model : option (KenLM F))
    (perplexity_cutoff : F) : traced bool :=
  unless_dropped cond_check_empty
    (call CheckEmpty (Ret (check_empty sentence strip_characters))) (
  unless_dropped cond_check_special_characters
    (call CheckSpecialCharacters
       (check_special_characters
          sentence special_characters special_characters_cutoff)) (
  unless_dropped cond_check_stopwords
    (call CheckStopwords
       (check_stopwords sentence strip_characters stopwords
          stopwords_min_cutoff stopwords_max_cutoff)) (
  unless_dropped cond_check_badwords
    (call CheckBadwords
       (check_badwords sentence strip_characters badwords badwords_cutoff)) (
  unless_dropped cond_check_lang_id
    (call CheckLangId
       (check_lang_id langs_id sentence strip_characters lang_oscar_id
          model_lang_id lang_id_cutoff)) (
  unless_dropped cond_check_perplexity
    (call CheckPerplexity
       (check_perplexity sentence kenlm_model perplexity_cutoff)) (
  mret true)))))).

End WithFloat.
End Filtering.

(** ** The composition of checks as the specification words it *)

(** A check of the engine: its toggle, its name and the outcome of its
    body on the sentence at hand. *)
Definition entry : Type := (bool * check * outcome bool)%type.

Definition enabled (x : entry) : bool := x.1.1.
Definition name (x : entry) : check := x.1.2.
Definition verdict (x : entry) : outcome bool := x.2.

(** Run the enabled checks in list order; stop at the first one that does
    not pass. *)
Fixpoint run_in_order (checks : list entry) : traced bool :=
  match checks with
  | [] => ([], Ret true)
  | x :: rest =>
      if enabled x then
        match verdict x with
        | Ret true => let '(t, o) := run_in_order rest in (name x :: t, o)
        | o => ([name x], o)
        end
      else run_in_order rest
  end.

(** An entry that does not stop the engine. *)
Definition passes_or_disabled (x : entry) : Prop :=
  enabled x = true → verdict x = Ret true.

Definition enabled_names (checks : list entry) : list check :=
  map name (List.filter enabled checks).

(** The number of characters of [s] that occur in [chars]. *)
Fixpoint count_chars_in (chars s : string) : nat :=
  match s with
  | "" => 0
  | String c s' =>
      (if PyStr.mem_char c chars then 1 else 0) + count_chars_in chars s'
  end.

(** The number of tokens of [words] that are members of [lexicon]. *)
Fixpoint count_in_lexicon (lexicon : gset string) (words : list string) : nat :=
  match words with
  | [] => 0
  | w :: ws =>
      (if decide (w ∈ lexicon) then 1 else 0) + count_in_lexicon lexicon ws
  end.

(** Left-to-right sum of floats, from the int [0]. *)
Definition fsum {F} `{PyFloat F} (xs : list F) : F :=
  fold_left fadd xs (float_of_int 0).

Section Table.

Context {F : Type} `{PyFloat F}.

(** The six checks of [Filtering.filtering] in the order of the
    specification: empty, special-character, stopword, badword,
    language-id, perplexity. *)
Definition check_table (langs_id : list LangRow)
    (sentence : string)
    (cond_check_empty : bool)
    (strip_characters : string)
    (cond_check_special_characters : bool)
    (special_characters : string)
    (special_characters_cutoff : F)
    (cond_check_stopwords : bool)
    (stopwords : option (gset string))
    (stopwords_min_cutoff stopwords_max_cutoff : F)
    (cond_check_badwords : bool)
    (badwords : option (gset string))
    (badwords_cutoff : F)
    (cond_check_lang_id : bool)
    (lang_oscar_id : string)
    (model_lang_id : option (FastText F))
    (lang_id_cutoff : F)
    (cond_check_perplexity : bool)
    (kenlm_model : option (KenLM F))
    (perplexity_cutoff : F) : list entry :=
  [ (cond_check_empty, CheckEmpty,
     Ret (Filtering.check_empty sentence strip_characters));
    (cond_check_special_characters, CheckSpecialCharacters,
     Filtering.check_special_characters
       sentence special_characters special_characters_cutoff);
    (cond_check_stopwords, CheckStopwords,
     Filtering.check_stopwords sentence strip_characters stopwords
       stopwords_min_cutoff stopwords_max_cutoff);
    (cond_check_badwords, CheckBadwords,
     Filtering.check_badwords
       sentence strip_characters badwords badwords_cutoff);
    (cond_check_lang_id, CheckLangId,
     Filtering.check_lang_id langs_id sentence strip_characters
       lang_oscar_id model_lang_id lang_id_cutoff);
    (cond_check_perplexity, CheckPerplexity,
     Filtering.check_perplexity sentence kenlm_model perplexity_cutoff) ].

(** The ratio comparison of the stopword check, on a token list. *)
Definition stopwords_by_ratio (words : list string) (lexicon : gset string)
    (min_cutoff max_cutoff : F) : bool :=
  let ratio :=
    int_truediv (Z.of_nat (count_in_lexicon lexicon words))
                (Z.of_nat (length words)) in
  flt min_cutoff ratio && flt ratio max_cutoff.

(** The ratio comparison of the badword check, on a token list. *)
Definition badwords_by_ratio (words : list string) (lexicon : gset string)
    (cutoff : F) : bool :=
  let ratio :=
    int_truediv (Z.of_nat (count_in_lexicon lexicon words))
                (Z.of_nat (length words)) in
  flt ratio cutoff.

End Table.

(** The token count, padded by one, of each line. *)
Definition padded_lengths (lines : list string) : list Z :=
  map (λ line, (Z.of_nat (length (PyStr.split_whitespace line)) + 1)%Z) lines.

(** A word without the separator character. *)
Definition sep_free (sep : ascii) (w : string) : Prop :=
  PyStr.mem_char sep w = false.

(** One pass of the transformer: split on single spaces, keep the words
    that satisfy [keep], join with single spaces. *)
Definition keep_words (keep : string → bool) (sentence : string) : string :=
  PyStr.join " " (List.filter keep (PyStr.split PyStr.space sentence)).

(** ** class FuncOscarFiltering *)

(** A full row of the table [langs_id]: the two columns of [LangRow] and the
    three other columns that [FuncOscarFiltering.__init__] reads.  A cell is
    a str or [None]. *)
Record LangsIdRow : Type := {
  columns : LangRow;
  nltk_id : option string;
  badwords_id : option string;
  kenlm_id : option string
}.

(** [if cell:] for a cell: [None] and the empty str are false. *)
Definition truthy_cell (cell : option string) : bool :=
  match cell with
  | Some id => negb (String.eqb id "")
  | None => false
  end.

(** [langs_id.loc[langs_id["oscar_id"] == lang_oscar_id, column].iloc[0]] *)
Definition cell_of_language {A : Type} (column : LangsIdRow → A)
    (langs_id : list LangsIdRow) (lang_oscar_id : string) : outcome A :=
  match List.filter
          (λ row, bool_decide (oscar_id (columns row) = lang_oscar_id))
          langs_id with
  | row :: _ => Ret (column row)
  | [] => Raise IndexError
  end.

(** [set(table[key])] for one of the dicts [stopwords] and [badwords]. *)
Definition set_of_entry (table : gmap string (list string)) (key : string)
    : outcome (gset string) :=
  match table !! key with
  | Some words => Ret (list_to_set words)
  | None => Raise KeyError
  end.

(** [if cell: x = load else: x = None] *)
Definition bound_if {A : Type} (cell : option string) (load : outcome A)
    : outcome (option A) :=
  if truthy_cell cell then a ← load; Ret (Some a) else Ret None.

Module FuncOscarFiltering.

Record t (F : Type) : Type := {
  lang_oscar_id : string;
  path_fasttext_model : string;
  path_kenlm_model : string;
  stopwords : option (gset string);
  badwords : option (gset string);
  model_lang_id : option (FastText F);
  kenlm_model : option (KenLM F);
  param : Param F
}.
Arguments lang_oscar_id {F} _.
Arguments path_fasttext_model {F} _.
Arguments path_kenlm_model {F} _.
Arguments stopwords {F} _.
Arguments badwords {F} _.
Arguments model_lang_id {F} _.
Arguments kenlm_model {F} _.
Arguments param {F} _.

(** [__init__].  The tables [langs_id], [stopwords], [badwords] and
    [parameters_filtering] and the two loaders [fasttext.load_model] and
    [kenlm.Model] are arguments; a loader may raise. *)
Definition init {F : Type}
    (langs_id : list LangsIdRow)
    (stopwords_table badwords_table : gmap string (list string))
    (load_model : string → outcome (FastText F))
    (kenlm_Model : string → outcome (KenLM F))
    (parameters_filtering : gmap string (Param F))
    (lang_oscar_id path_fasttext_model path_kenlm_model : string)
    : outcome (t F) :=
  nltk_lang_id ← cell_of_language nltk_id langs_id lang_oscar_id;
  stopwords ←
    bound_if nltk_lang_id
      (set_of_entry stopwords_table (default "" nltk_lang_id));
  badwords_lang_id ← cell_of_language badwords_id langs_id lang_oscar_id;
  badwords ←
    bound_if badwords_lang_id
      (set_of_entry badwords_table (default "" badwords_lang_id));
  fasttext_lang_id ←
    cell_of_language (λ row, fasttext_id (columns row)) langs_id lang_oscar_id;
  model_lang_id ← bound_if fasttext_lang_id (load_model path_fasttext_model);
  kenlm_lang_id ← cell_of_language kenlm_id langs_id lang_oscar_id;
  kenlm_model ← bound_if kenlm_lang_id (kenlm_Model path_kenlm_model);
  param ← load_parameters parameters_filtering lang_oscar_id;
  Ret {| lang_oscar_id := lang_oscar_id;
         path_fasttext_model := path_fasttext_model;
         path_kenlm_model := path_kenlm_model;
         stopwords := stopwords;
         badwords := badwords;
         model_lang_id := model_lang_id;
         kenlm_model := kenlm_model;
         param := param |}.

(** [__call__]: [Filtering.filtering] on [example["text"].strip()] with the
    resources and parameters of [self]. *)
Definition call {F : Type} `{PyFloat F} (langs_id : list LangsIdRow)
    (self : t F) (example : gmap string value) : traced bool :=
  let p := param self in
  match example !! "text" with
  | None => ([], Raise KeyError)
  | Some (VStr text) =>
      Filtering.filtering (map columns langs_id)
        (PyStr.strip text)
        (cond_check_empty p)
        (strip_characters p)
        (cond_check_special_characters p)
        (special_characters p)
        (special_characters_cutoff p)
        (cond_check_stopwords p)
        (stopwords self)
        (stopwords_min_cutoff p)
        (stopwords_max_cutoff p)
        (cond_check_badwords p)
        (badwords self)
        (badwords_cutoff p)
        (cond_check_lang_id p)
        (lang_oscar_id self)
        (model_lang_id self)
        (lang_id_cutoff p)
        (cond_check_perplexity p)
        (kenlm_model self)
        (perplexity_cutoff p)
  | Some (VInt _) => ([], Raise AttributeError)
  end.

End FuncOscarFiltering.

(** The words that [ModifyingSentences.modifying_sentences] keeps: those that
    pass each enabled removal. *)
Definition kept_word (cond_remove_words_with_incorrect_substrings : bool)
    (incorrect_word_substrings : list string)
    (cond_remove_long_words : bool) (length_word_cutoff : Z)
    (word : string) : bool :=
  (if cond_remove_words_with_incorrect_substrings
   then ModifyingSentences.no_incorrect_substring
          incorrect_word_substrings word
   else true)
  && (if cond_remove_long_words
      then ModifyingSentences.is_short length_word_cutoff word
      else true).

(** [sub] is a contiguous part of [s]: what [sub in s] means. *)
Definition substring_of (sub s : string) : Prop :=
  ∃ pre post, s = pre +:+ sub +:+ post.

(** ** Sample data *)

(** The configuration of the specification's end-to-end scenario for the
    language [xx]: empty and special-character checks on (cutoff 0.3), the
    other checks off; both transformer passes on. *)
Definition param_xx : Param R := {|
  cond_remove_words_with_incorrect_substrings := true;
  incorrect_word_substrings := ["http"; "www"];
  cond_remove_long_words := true;
  length_word_cutoff := 25;
  cond_check_empty := true;
  strip_characters := ".,!?";
  cond_check_special_characters := true;
  special_characters := "!@#";
  special_characters_cutoff := (3 / 10)%R;
  cond_check_stopwords := false;
  stopwords_min_cutoff := 0%R;
  stopwords_max_cutoff := 1%R;
  cond_check_badwords := false;
  badwords_cutoff := 1%R;
  cond_check_lang_id := false;
  lang_id_cutoff := (1 / 2)%R;
  cond_check_perplexity := false;
  perplexity_cutoff := 1000%R
|}.

Definition transformer_xx : OscarModifyingSentences.t R :=
  {| OscarModifyingSentences.lang_oscar_id := "xx";
     OscarModifyingSentences.param := param_xx |}.

Definition record_xx : gmap string value :=
  {[ "id" := VInt 7; "text" := VStr "see http://a.b now" ]}.

(** A model that gives every line the log score [-1000.0]. *)
Definition kenlm_improbable : KenLM R := {| score line := (-1000)%R |}.

(** The filter of the scenario: language [xx] has no resource. *)
Definition filter_xx : FuncOscarFiltering.t R :=
  {| FuncOscarFiltering.lang_oscar_id := "xx";
     FuncOscarFiltering.path_fasttext_model := "/tmp/lid.176.bin";
     FuncOscarFiltering.path_kenlm_model := "ac_dc/af.arpa.bin";
     FuncOscarFiltering.stopwords := None;
     FuncOscarFiltering.badwords := None;
     FuncOscarFiltering.model_lang_id := None;
     FuncOscarFiltering.kenlm_model := None;
     FuncOscarFiltering.param := param_xx |}.

(** [Filtering.filtering] on the scenario's configuration, without
    resources. *)
Definition filtering_xx (sentence : string) (cond_check_lang_id : bool)
    : traced bool :=
  Filtering.filtering [] sentence
    (cond_check_empty param_xx) (strip_characters param_xx)
    (cond_check_special_characters param_xx) (special_characters param_xx)
    (special_characters_cutoff param_xx)
    (cond_check_stopwords param_xx) None
    (stopwords_min_cutoff param_xx) (stopwords_max_cutoff param_xx)
    (cond_check_badwords param_xx) None (badwords_cutoff param_xx)
    cond_check_lang_id "xx" None (lang_id_cutoff param_xx)
    (cond_check_perplexity param_xx) None (perplexity_cutoff param_xx).

(** * Properties *)

(** ** Strings: splitting and joining *)

Section SplitJoin.

Variable sep : ascii.

Lemma split_not_nil (s : string) : PyStr.split sep s ≠ [].
Proof.
  induction s as [|c s IH]; simpl; [done|].
  destruct (Ascii.eqb c sep); [done|].
  destruct (PyStr.split sep s); done.
Qed.

Lemma split_length_pos (s : string) : 0 < length (PyStr.split sep s).
Proof.
  pose proof (split_not_nil s) as Hne.
  destruct (PyStr.split sep s); [done | simpl; lia].
Qed.

Lemma split_sep_free (s : string) : Forall (sep_free sep) (PyStr.split sep s).
Proof.
  induction s as [|c s IH]; simpl.
  - repeat constructor.
  - destruct (Ascii.eqb c sep) eqn:Hc.
    + constructor; [reflexivity | exact IH].
    + destruct (PyStr.split sep s) as [|w ws];
        [repeat constructor; unfold sep_free; simpl|].
      * rewrite Ascii.eqb_sym, Hc. reflexivity.
      * inversion IH as [|? ? Hw Hws]; subst. constructor; [|exact Hws].
        unfold sep_free in *. simpl. rewrite Ascii.eqb_sym, Hc. exact Hw.
Qed.

Lemma split_word (w : string) : sep_free sep w → PyStr.split sep w = [w].
Proof.
  unfold sep_free. induction w as [|c w IH]; simpl; [done|].
  intros Hc. apply orb_false_elim in Hc as [Hc Hw].
  rewrite Ascii.eqb_sym, Hc, (IH Hw). reflexivity.
Qed.

Lemma split_app (w s : string) :
  sep_free sep w →
  PyStr.split sep (w +:+ String sep s) = w :: PyStr.split sep s.
Proof.
  unfold sep_free. induction w as [|c w IH]; simpl.
  - intros _. rewrite Ascii.eqb_refl. reflexivity.
  - intros Hc. apply orb_false_elim in Hc as [Hc Hw].
    rewrite Ascii.eqb_sym, Hc, (IH Hw). reflexivity.
Qed.

Lemma split_join (ws : list string) :
  ws ≠ [] → Forall (sep_free sep) ws →
  PyStr.split sep (PyStr.join (String sep "") ws) = ws.
Proof.
  induction ws as [|w ws IH]; [done|].
  intros _ Hall. inversion Hall as [|? ? Hw Hws]; subst.
  destruct ws as [|w' ws].
  - simpl. apply split_word, Hw.
  - change (PyStr.join (String sep "") (w :: w' :: ws))
      with (w +:+ String sep (PyStr.join (String sep "") (w' :: ws))).
    rewrite split_app by exact Hw. f_equal. apply IH; [done | exact Hws].
Qed.

End SplitJoin.

(** ** The transformer *)

Lemma filter_sep_free (keep : string → bool) (ws : list string) :
  Forall (sep_free PyStr.space) ws →
  Forall (sep_free PyStr.space) (List.filter keep ws).
Proof.
  induction 1 as [|w ws Hw _ IH]; simpl; [constructor|].
  destruct (keep w); [constructor|]; assumption.
Qed.

Lemma filter_all (keep : string → bool) (ws : list string) :
  Forall (λ w, keep w = true) ws → List.filter keep ws = ws.
Proof.
  induction 1 as [|w ws Hw _ IH]; simpl; [done|]. by rewrite Hw, IH.
Qed.

Lemma filter_kept (keep : string → bool) (ws : list string) :
  Forall (λ w, keep w = true) (List.filter keep ws).
Proof.
  induction ws as [|w ws IH]; simpl; [constructor|].
  destruct (keep w) eqn:Hw; [constructor|]; assumption.
Qed.

Lemma filter_kept_other (keep keep' : string → bool) (ws : list string) :
  Forall (λ w, keep w = true) ws →
  Forall (λ w, keep w = true) (List.filter keep' ws).
Proof.
  induction 1 as [|w ws Hw _ IH]; simpl; [constructor|].
  destruct (keep' w); [constructor|]; assumption.
Qed.

(** A pass applied to a joined list of space-free words filters that list;
    this also holds for the empty list, whose join [""] splits into [[""]]. *)
Lemma keep_words_join (keep : string → bool) (ws : list string) :
  Forall (sep_free PyStr.space) ws →
  keep_words keep (PyStr.join " " ws) = PyStr.join " " (List.filter keep ws).
Proof.
  intros Hws. unfold keep_words. destruct ws as [|w ws].
  - simpl. destruct (keep ""); reflexivity.
  - change " " with (String PyStr.space "") at 1.
    rewrite split_join; [reflexivity | done | exact Hws].
Qed.

Lemma keep_words_fixed (keep : string → bool) (ws : list string) :
  Forall (sep_free PyStr.space) ws → Forall (λ w, keep w = true) ws →
  keep_words keep (PyStr.join " " ws) = PyStr.join " " ws.
Proof.
  intros Hfree Hkeep. rewrite keep_words_join by exact Hfree.
  by rewrite filter_all.
Qed.

Lemma remove_words_with_incorrect_substrings_keep_words sentence substrs :
  ModifyingSentences.remove_words_with_incorrect_substrings sentence substrs
  = keep_words (ModifyingSentences.no_incorrect_substring substrs) sentence.
Proof. reflexivity. Qed.

Lemma remove_long_words_keep_words sentence cutoff :
  ModifyingSentences.remove_long_words sentence cutoff
  = keep_words (ModifyingSentences.is_short cutoff) sentence.
Proof. reflexivity. Qed.

(** C7. [ModifyingSentences.modifying_sentences] is idempotent: for every
    sentence, both toggles, every list of forbidden substrings and every
    length cutoff, transforming the transformed sentence again gives the
    transformed sentence. *)
Theorem modifying_sentences_idempotent
    (sentence : string)
    (cond_remove_words_with_incorrect_substrings : bool)
    (incorrect_word_substrings : list string)
    (cond_remove_long_words : bool)
    (length_word_cutoff : Z) :
  let transform s :=
    ModifyingSentences.modifying_sentences
      s cond_remove_words_with_incorrect_substrings incorrect_word_substrings
      cond_remove_long_words length_word_cutoff in
  transform (transform sentence) = transform sentence.
Proof.
  unfold ModifyingSentences.modifying_sentences.
  rewrite !remove_words_with_incorrect_substrings_keep_words.
  rewrite !remove_long_words_keep_words.
  set (ok := ModifyingSentences.no_incorrect_substring incorrect_word_substrings).
  set (short := ModifyingSentences.is_short length_word_cutoff).
  pose proof (split_sep_free PyStr.space sentence) as Hfree.
  destruct cond_remove_words_with_incorrect_substrings,
    cond_remove_long_words; cbv zeta; try reflexivity.
  - (* both passes *)
    set (ws := List.filter short (List.filter ok (PyStr.split PyStr.space sentence))).
    assert (Forall (sep_free PyStr.space) ws) as Hws
      by (do 2 apply filter_sep_free; exact Hfree).
    assert (keep_words short (keep_words ok sentence) = PyStr.join " " ws) as ->.
    { change (keep_words ok sentence)
        with (PyStr.join " " (List.filter ok (PyStr.split PyStr.space sentence))).
      apply keep_words_join, filter_sep_free, Hfree. }
    rewrite (keep_words_fixed ok); [| exact Hws |].
    + apply keep_words_fixed; [exact Hws | apply filter_kept].
    + apply filter_kept_other, filter_kept.
  - (* forbidden substrings only *)
    change (keep_words ok sentence)
      with (PyStr.join " " (List.filter ok (PyStr.split PyStr.space sentence))).
    apply keep_words_fixed; [apply filter_sep_free, Hfree | apply filter_kept].
  - (* long words only *)
    change (keep_words short sentence)
      with (PyStr.join " " (List.filter short (PyStr.split PyStr.space sentence))).
    apply keep_words_fixed; [apply filter_sep_free, Hfree | apply filter_kept].
Qed.

(** ** The engine: running checks in order *)

Lemma unless_dropped_call (cond : bool) (c : check) (o : outcome bool)
    (rest : list entry) :
  unless_dropped cond (call c o) (run_in_order rest)
  = run_in_order ((cond, c, o) :: rest).
Proof.
  unfold unless_dropped, call, mbind, traced_bind, mret, traced_ret. simpl.
  destruct cond; [|reflexivity].
  destruct o as [[|]|e]; reflexivity.
Qed.

Lemma run_in_order_drop (before : list entry) (x : entry) (after : list entry) :
  enabled x = true → verdict x = Ret false →
  Forall passes_or_disabled before →
  run_in_order (before ++ x :: after)
  = ((enabled_names before ++ [name x])%list, Ret false).
Proof.
  intros Hen Hv. induction 1 as [|y before Hy _ IH]; simpl.
  - by rewrite Hen, Hv.
  - unfold enabled_names in *. simpl.
    destruct (enabled y) eqn:Ey; [|exact IH].
    rewrite (Hy Ey), IH. reflexivity.
Qed.

Lemma run_in_order_keep (checks : list entry) :
  Forall passes_or_disabled checks →
  run_in_order checks = (enabled_names checks, Ret true).
Proof.
  induction 1 as [|y checks Hy _ IH]; simpl; [reflexivity|].
  unfold enabled_names in *. simpl.
  destruct (enabled y) eqn:Ey; [|exact IH].
  rewrite (Hy Ey), IH. reflexivity.
Qed.

Lemma run_in_order_prefix (checks : list entry) :
  (run_in_order checks).1 `prefix_of` enabled_names checks.
Proof.
  induction checks as [|y checks IH]; simpl; [done|].
  unfold enabled_names in *. simpl.
  destruct (enabled y) eqn:Ey; [|exact IH].
  destruct (verdict y) as [[|]|e]; simpl.
  - destruct (run_in_order checks) as [t o]. simpl in *.
    by apply prefix_cons.
  - apply prefix_cons, prefix_nil.
  - apply prefix_cons, prefix_nil.
Qed.

(** A check that was called is enabled, and every enabled check before it
    passed. *)
Lemma run_in_order_called (checks : list entry) (c : check) :
  c ∈ (run_in_order checks).1 →
  ∃ before x after,
    checks = (before ++ x :: after)%list ∧ name x = c ∧ enabled x = true
    ∧ Forall passes_or_disabled before.
Proof.
  induction checks as [|y checks IH]; simpl; [by intros ?%elem_of_nil|].
  destruct (enabled y) eqn:Ey.
  - intros Hc.
    assert (c = name y ∨ (verdict y = Ret true ∧ c ∈ (run_in_order checks).1))
      as [->|[Hy Hin]].
    { destruct (verdict y) as [[|]|e]; simpl in Hc.
      - destruct (run_in_order checks) as [t o]. simpl in *.
        apply elem_of_cons in Hc as [->|Hc]; [by left | by right].
      - apply list_elem_of_singleton in Hc. by left.
      - apply list_elem_of_singleton in Hc. by left. }
    + exists [], y, checks. repeat split; [done | constructor].
    + destruct (IH Hin) as (before & x & after & -> & Hn & Hx & Hb).
      exists (y :: before), x, after. repeat split; [done..|].
      constructor; [by intros _ | exact Hb].
  - intros Hin.
    destruct (IH Hin) as (before & x & after & -> & Hn & Hx & Hb).
    exists (y :: before), x, after. repeat split; [done..|].
    constructor; [|exact Hb]. intros Hy. congruence.
Qed.

(** An outcome other than [True] is the verdict of the last check called;
    that check is enabled and every enabled check before it passed. *)
Lemma run_in_order_stopped (checks : list entry) (o : outcome bool) :
  (run_in_order checks).2 = o → o ≠ Ret true →
  ∃ before x after,
    checks = (before ++ x :: after)%list ∧ Forall passes_or_disabled before
    ∧ enabled x = true ∧ verdict x = o
    ∧ (run_in_order checks).1 = (enabled_names before ++ [name x])%list.
Proof.
  intros <-. induction checks as [|y checks IH]; simpl; [done|].
  unfold enabled_names in *.
  destruct (enabled y) eqn:Ey.
  - destruct (verdict y) as [[|]|e] eqn:Hy; simpl.
    + destruct (run_in_order checks) as [t o] eqn:Hr. simpl in *.
      intros Ho.
      destruct (IH Ho) as (before & x & after & -> & Hb & Hx & Hv & Ht).
      exists (y :: before), x, after. simpl. rewrite Ey, Ht.
      repeat split; [|done..]. constructor; [by intros _ | exact Hb].
    + intros _. exists [], y, checks. repeat split; [constructor | done..].
    + intros _. exists [], y, checks. repeat split; [constructor | done..].
  - intros Ho.
    destruct (IH Ho) as (before & x & after & -> & Hb & Hx & Hv & Ht).
    exists (y :: before), x, after. simpl. rewrite Ey.
    repeat split; [|done..]. constructor; [|exact Hb].
    intros Hy. congruence.
Qed.

(** The outcome of a list of checks run after another. *)
Lemma run_in_order_app (before rest : list entry) :
  (run_in_order (before ++ rest)).2
  = match (run_in_order before).2 with
    | Ret true => (run_in_order rest).2
    | o => o
    end.
Proof.
  induction before as [|y before IH]; simpl; [reflexivity|].
  destruct (enabled y); [|exact IH].
  destruct (verdict y) as [[|]|e]; simpl; try reflexivity.
  destruct (run_in_order (before ++ rest)) as [t o].
  destruct (run_in_order before) as [t' o']. exact IH.
Qed.

(** Switching off a check that passes does not change the outcome. *)
Lemma run_in_order_disable_passing (before : list entry) (x : entry)
    (after : list entry) :
  verdict x = Ret true →
  (run_in_order (before ++ x :: after)).2
  = (run_in_order (before ++ (false, name x, verdict x) :: after)).2.
Proof.
  intros Hv. rewrite !run_in_order_app. simpl.
  destruct (enabled x); [|reflexivity]. rewrite Hv.
  by destruct (run_in_order after).
Qed.

(** ** The checks one by one *)

Section Checks.

Context {F : Type} `{PyFloat F}.

Lemma len_truediv_ret (a b : nat) :
  b ≠ 0 →
  len_truediv a b = Ret (int_truediv (Z.of_nat a) (Z.of_nat b)).
Proof.
  intros Hb. unfold len_truediv.
  destruct (Nat.eqb_spec b 0); [contradiction | reflexivity].
Qed.

Lemma get_words_length_pos (sentence strip_characters : string) :
  0 < length (ModifyingSentences.get_words_from_sentence
                sentence strip_characters).
Proof.
  unfold ModifyingSentences.get_words_from_sentence.
  rewrite length_map. apply split_length_pos.
Qed.

Lemma filter_mem_char_length (chars s : string) :
  length (List.filter (λ char, PyStr.mem_char char chars)
                      (list_ascii_of_string s))
  = count_chars_in chars s.
Proof.
  induction s as [|c s IH]; simpl; [reflexivity|].
  destruct (PyStr.mem_char c chars); simpl; by rewrite IH.
Qed.

Lemma filter_lexicon_length (lexicon : gset string) (words : list string) :
  length (List.filter (λ word, bool_decide (word ∈ lexicon)) words)
  = count_in_lexicon lexicon words.
Proof.
  induction words as [|w ws IH]; simpl; [reflexivity|].
  destruct (decide (w ∈ lexicon)) as [Hw|Hw].
  - rewrite bool_decide_eq_true_2 by exact Hw. simpl. by rewrite IH.
  - rewrite bool_decide_eq_false_2 by exact Hw. exact IH.
Qed.

Lemma truthy_set_nonempty (lexicon : gset string) :
  lexicon ≠ ∅ → truthy_set lexicon = true.
Proof. intros Hne. by apply bool_decide_eq_true_2. Qed.

Lemma truthy_set_empty : truthy_set ∅ = false.
Proof. by apply bool_decide_eq_false_2; intros Hne. Qed.

Lemma check_stopwords_nonempty sentence strip_characters
    (lexicon : gset string) (min_cutoff max_cutoff : F) :
  lexicon ≠ ∅ →
  Filtering.check_stopwords
    sentence strip_characters (Some lexicon) min_cutoff max_cutoff
  = Ret (stopwords_by_ratio
           (ModifyingSentences.get_words_from_sentence
              sentence strip_characters)
           lexicon min_cutoff max_cutoff).
Proof.
  intros Hne. unfold Filtering.check_stopwords, stopwords_by_ratio.
  rewrite (truthy_set_nonempty _ Hne), filter_lexicon_length.
  rewrite len_truediv_ret; [reflexivity|].
  pose proof (get_words_length_pos sentence strip_characters). lia.
Qed.

Lemma check_badwords_nonempty sentence strip_characters
    (lexicon : gset string) (cutoff : F) :
  lexicon ≠ ∅ →
  Filtering.check_badwords sentence strip_characters (Some lexicon) cutoff
  = Ret (badwords_by_ratio
           (ModifyingSentences.get_words_from_sentence
              sentence strip_characters)
           lexicon cutoff).
Proof.
  intros Hne. unfold Filtering.check_badwords, badwords_by_ratio.
  rewrite (truthy_set_nonempty _ Hne), filter_lexicon_length.
  rewrite len_truediv_ret; [reflexivity|].
  pose proof (get_words_length_pos sentence strip_characters). lia.
Qed.

Lemma check_stopwords_empty_set sentence strip_characters
    (min_cutoff max_cutoff : F) :
  Filtering.check_stopwords sentence strip_characters (Some ∅)
    min_cutoff max_cutoff = Ret true.
Proof. unfold Filtering.check_stopwords. by rewrite truthy_set_empty. Qed.

Lemma check_badwords_empty_set sentence strip_characters (cutoff : F) :
  Filtering.check_badwords sentence strip_characters (Some ∅) cutoff
  = Ret true.
Proof. unfold Filtering.check_badwords. by rewrite truthy_set_empty. Qed.

Lemma check_stopwords_returns sentence strip_characters stopwords
    (min_cutoff max_cutoff : F) :
  ∃ b, Filtering.check_stopwords
         sentence strip_characters stopwords min_cutoff max_cutoff = Ret b.
Proof.
  destruct stopwords as [lexicon|]; [|by exists true].
  destruct (decide (lexicon = ∅)) as [->|Hne].
  - exists true. unfold Filtering.check_stopwords.
    by rewrite truthy_set_empty.
  - eexists. by apply check_stopwords_nonempty.
Qed.

Lemma check_badwords_returns sentence strip_characters badwords
    (cutoff : F) :
  ∃ b, Filtering.check_badwords
         sentence strip_characters badwords cutoff = Ret b.
Proof.
  destruct badwords as [lexicon|]; [|by exists true].
  destruct (decide (lexicon = ∅)) as [->|Hne].
  - exists true. unfold Filtering.check_badwords.
    by rewrite truthy_set_empty.
  - eexists. by apply check_badwords_nonempty.
Qed.

Lemma perplexity_fold (kenlm_model : KenLM F) (lines : list string)
    (doc_log_score : F) (doc_length : Z) :
  fold_left (Filtering.perplexity_step kenlm_model) lines
            (doc_log_score, doc_length)
  = (fold_left fadd (map (score kenlm_model) lines) doc_log_score,
     (doc_length + foldr Z.add 0 (padded_lengths lines))%Z).
Proof.
  revert doc_log_score doc_length.
  induction lines as [|line lines IH]; intros a n; simpl.
  - by rewrite Z.add_0_r.
  - rewrite IH. f_equal. lia.
Qed.

Lemma padded_lengths_sum_pos (lines : list string) :
  (Z.of_nat (length lines) ≤ foldr Z.add 0 (padded_lengths lines))%Z.
Proof. induction lines as [|line lines IH]; simpl; lia. Qed.

Lemma check_special_characters_value (sentence special_characters : string)
    (cutoff : F) :
  String.length (ModifyingSentences.lower_strip_sentence sentence) ≠ 0 →
  Filtering.check_special_characters sentence special_characters cutoff
  = Ret (flt (int_truediv
                (Z.of_nat (count_chars_in special_characters
                   (ModifyingSentences.lower_strip_sentence sentence)))
                (Z.of_nat (String.length
                   (ModifyingSentences.lower_strip_sentence sentence))))
             cutoff).
Proof.
  intros Hlen. unfold Filtering.check_special_characters.
  rewrite filter_mem_char_length, len_truediv_ret by exact Hlen.
  reflexivity.
Qed.

Lemma get_perplexity_score_value (sentence : string) (kenlm_model : KenLM F) :
  let lines := PyStr.split PyStr.newline sentence in
  Filtering.get_perplexity_score sentence kenlm_model
  = float_pow10
      (fdiv (fneg (fsum (map (score kenlm_model) lines)))
            (float_of_int (foldr Z.add 0%Z (padded_lengths lines)))).
Proof.
  intros lines. unfold Filtering.get_perplexity_score. fold lines.
  rewrite perplexity_fold, Z.add_0_l. unfold float_div_int.
  destruct (Z.eqb_spec (foldr Z.add 0%Z (padded_lengths lines)) 0)
    as [Hzero|_]; [|reflexivity].
  pose proof (padded_lengths_sum_pos lines) as Hsum.
  pose proof (split_length_pos PyStr.newline sentence) as Hlines.
  fold lines in Hlines. lia.
Qed.

Lemma check_perplexity_raises (sentence : string)
    (kenlm_model : option (KenLM F)) (cutoff : F) (e : exn) :
  Filtering.check_perplexity sentence kenlm_model cutoff = Raise e →
  e = OverflowError ∧ is_Some kenlm_model.
Proof.
  destruct kenlm_model as [model|]; [|discriminate].
  unfold Filtering.check_perplexity.
  rewrite get_perplexity_score_value. unfold float_pow10.
  destruct (fpow10 _); simpl; [discriminate|].
  intros [= <-]. by eauto.
Qed.

Lemma check_lang_id_no_zero_division (langs_id : list LangRow)
    (sentence strip_characters lang_oscar_id : string)
    (model_lang_id : option (FastText F)) (cutoff : F) :
  Filtering.check_lang_id langs_id sentence strip_characters lang_oscar_id
    model_lang_id cutoff ≠ Raise ZeroDivisionError.
Proof.
  destruct model_lang_id as [model|]; [|done].
  unfold Filtering.check_lang_id, Filtering.oscar_id_of_fasttext_id.
  destruct (List.filter _ langs_id); done.
Qed.

End Checks.

Lemma Rltb_irrefl (x : R) : Rltb x x = false.
Proof. unfold Rltb. destruct (Rlt_dec x x); [lra | reflexivity]. Qed.

Lemma Rltb_false (x y : R) : (y <= x)%R → Rltb x y = false.
Proof. intros Hle. unfold Rltb. destruct (Rlt_dec x y); [lra | reflexivity]. Qed.

Lemma Rltb_true (x y : R) : (x < y)%R → Rltb x y = true.
Proof. intros Hlt. unfold Rltb. destruct (Rlt_dec x y); [reflexivity | lra]. Qed.

(** ** Claims on the single checks *)

(** C9. [ModifyingSentences.get_words_from_sentence] returns at least one
    token for every input; hence [Filtering.check_empty] passes exactly when
    the normalized text is non-empty, and the stopword and badword checks
    return a verdict, never dividing by a zero token count, whatever the
    lexicon and the cutoffs. *)
Theorem get_words_from_sentence_nonempty (sentence strip_characters : string) :
(1 ≤ length (ModifyingSentences.get_words_from_sentence
                 sentence strip_characters))%nat
  ∧ (Filtering.check_empty sentence strip_characters = true
     ↔ ModifyingSentences.lower_strip_sentence sentence ≠ "")
  ∧ (∀ (F : Type) (PF : PyFloat F) stopwords (min_cutoff max_cutoff : F),
       ∃ b, Filtering.check_stopwords sentence strip_characters stopwords
              min_cutoff max_cutoff = Ret b)
  ∧ (∀ (F : Type) (PF : PyFloat F) badwords (cutoff : F),
       ∃ b, Filtering.check_badwords sentence strip_characters badwords
              cutoff = Ret b).
Proof.
  pose proof (get_words_length_pos sentence strip_characters) as Hpos.
  split; [lia|]. split; [|split].
  - unfold Filtering.check_empty.
    rewrite andb_true_iff, !Nat.ltb_lt. split.
    + intros [Hlen _] Hempty. rewrite Hempty in Hlen. simpl in Hlen. lia.
    + intros Hne. split; [|exact Hpos].
      destruct (ModifyingSentences.lower_strip_sentence sentence);
        [done | simpl; lia].
  - intros. apply check_stopwords_returns.
  - intros. apply check_badwords_returns.
Qed.

(** C3, as the code has it.  [Filtering.get_perplexity_score] splits the
    document into lines on newline and, with [s_i] the model's log score of
    line [i] and [t_i] its number of whitespace-separated tokens, computes
    the exponent [-(s_1 + ... + s_n) / ((t_1 + 1) + ... + (t_n + 1))], whose
    denominator is never zero.  When [10.0 ** exponent] is within the range
    of a float it returns that power, and [Filtering.check_perplexity] with
    that model passes iff the power is strictly below the cutoff; when the
    power overflows, both raise [OverflowError]. *)
Theorem get_perplexity_score_formula {F : Type} `{PyFloat F}
    (sentence : string) (kenlm_model : KenLM F) (perplexity_cutoff : F) :
  let lines := PyStr.split PyStr.newline sentence in
  let s := map (score kenlm_model) lines in
  let t := map (λ line, length (PyStr.split_whitespace line)) lines in
  let total_tokens := foldr Z.add 0%Z (map (λ t_i, (Z.of_nat t_i + 1)%Z) t) in
  let exponent := fdiv (fneg (fsum s)) (float_of_int total_tokens) in
  match fpow10 exponent with
  | Some metric =>
      Filtering.get_perplexity_score sentence kenlm_model = Ret metric
      ∧ Filtering.check_perplexity sentence (Some kenlm_model)
          perplexity_cutoff
        = Ret (flt metric perplexity_cutoff)
  | None =>
      Filtering.get_perplexity_score sentence kenlm_model
      = Raise OverflowError
      ∧ Filtering.check_perplexity sentence (Some kenlm_model)
          perplexity_cutoff
        = Raise OverflowError
  end.
Proof.
  intros lines s t total_tokens exponent.
  assert (Filtering.get_perplexity_score sentence kenlm_model
          = float_pow10 exponent) as Hscore.
  { rewrite get_perplexity_score_value. fold lines.
    unfold exponent, total_tokens, t, s, padded_lengths. by rewrite map_map. }
  unfold Filtering.check_perplexity. rewrite Hscore. unfold float_pow10.
  destruct (fpow10 exponent); split; reflexivity.
Qed.

Lemma Rpower_10_500_overflows : ¬ (Rpower 10 500 <= max_binary64)%R.
Proof.
  replace 500%R with (INR 500) by (by rewrite INR_IZR_INZ).
  rewrite Rpower_pow by lra. rewrite pow_IZR. unfold max_binary64.
  apply Rlt_not_le, IZR_lt. by vm_compute.
Qed.

(** C3, as the specification words it, does not hold.  For a one-token
    document ["a"] and a model that scores it [-1000.0], the exponent is
    [1000 / 2 = 500] and [10.0 ** 500.0] is beyond the largest float: the
    code raises [OverflowError] where the claim has it return [10 ** 500],
    and the perplexity check raises where the claim has it compare. *)
Lemma get_perplexity_score_overflow :
  Filtering.get_perplexity_score (H := R_ranged_PyFloat) "a" kenlm_improbable
  = Raise OverflowError
  ∧ Filtering.get_perplexity_score (H := R_ranged_PyFloat) "a"
      kenlm_improbable
    ≠ Ret (Rpower 10 (- (0 + -1000) / (1 + 1)))
  ∧ ∀ perplexity_cutoff,
      Filtering.check_perplexity (H := R_ranged_PyFloat) "a"
        (Some kenlm_improbable) perplexity_cutoff
      = Raise OverflowError.
Proof.
  assert (Filtering.get_perplexity_score (H := R_ranged_PyFloat) "a"
            kenlm_improbable = Raise OverflowError) as Hscore.
  { rewrite (get_perplexity_score_value (H := R_ranged_PyFloat)).
    change (PyStr.split PyStr.newline "a") with ["a"].
    change (foldr Z.add 0%Z (padded_lengths ["a"])) with 2%Z.
    unfold float_pow10, fsum. simpl.
    replace (- (0 + -1000) / 2)%R with 500%R by lra.
    destruct (Rle_dec (Rpower 10 500) max_binary64) as [Hle|_];
      [|reflexivity].
    by apply Rpower_10_500_overflows in Hle. }
  split; [exact Hscore|]. split; [by rewrite Hscore|].
  intros cutoff. unfold Filtering.check_perplexity. by rewrite Hscore.
Qed.

(** C4. When the normalized text has length [L > 0] and exactly [k] of its
    characters are in the special-character set,
    [Filtering.check_special_characters] compares the ratio [k / L] with the
    cutoff and passes iff the ratio is strictly below it; a ratio equal to
    the cutoff fails. *)
Theorem check_special_characters_ratio {F : Type} {PF : PyFloat F}
    (flt_irrefl : ∀ x : F, flt x x = false)
    (sentence special_characters : string) (special_characters_cutoff : F)
    (L k : nat) :
  String.length (ModifyingSentences.lower_strip_sentence sentence) = L →
  0 < L →
  count_chars_in special_characters
    (ModifyingSentences.lower_strip_sentence sentence) = k →
  let ratio := int_truediv (Z.of_nat k) (Z.of_nat L) in
  Filtering.check_special_characters
    sentence special_characters special_characters_cutoff
  = Ret (flt ratio special_characters_cutoff)
  ∧ Filtering.check_special_characters sentence special_characters ratio
    = Ret false.
Proof.
  intros HL Hpos Hk ratio.
  assert (∀ cutoff,
    Filtering.check_special_characters sentence special_characters cutoff
    = Ret (flt ratio cutoff)) as Hval.
  { intros cutoff. rewrite check_special_characters_value by lia.
    unfold ratio. by rewrite Hk, HL. }
  split; [apply Hval|]. by rewrite Hval, flt_irrefl.
Qed.

Lemma check_special_characters_ratio_witness :
  String.length (ModifyingSentences.lower_strip_sentence "A!") = 2
  ∧ Filtering.check_special_characters "A!" "!?" (1 / 4)%R
    = Ret (Rltb (IZR 1 / IZR 2) (1 / 4))
  ∧ Filtering.check_special_characters "A!" "!?" (IZR 1 / IZR 2)%R = Ret false.
Proof.
  split; [reflexivity|].
  apply (check_special_characters_ratio
           (PF := R_PyFloat) Rltb_irrefl "A!" "!?" (1 / 4)%R 2 1);
    [reflexivity | lia | reflexivity].
Defined.

(** C5. With a non-empty stopword lexicon, [Filtering.check_stopwords]
    computes the ratio of the tokens in the lexicon to all tokens and passes
    iff [min_cutoff < ratio] and [ratio < max_cutoff], both strictly: a ratio
    equal to either cutoff fails, a ratio strictly between them passes. *)
Theorem check_stopwords_strict_bounds {F : Type} {PF : PyFloat F}
    (flt_irrefl : ∀ x : F, flt x x = false)
    (sentence strip_characters : string) (lexicon : gset string)
    (stopwords_min_cutoff stopwords_max_cutoff : F) :
  lexicon ≠ ∅ →
  let words :=
    ModifyingSentences.get_words_from_sentence sentence strip_characters in
  let ratio :=
    int_truediv (Z.of_nat (count_in_lexicon lexicon words))
                (Z.of_nat (length words)) in
  Filtering.check_stopwords sentence strip_characters (Some lexicon)
    stopwords_min_cutoff stopwords_max_cutoff
  = Ret (flt stopwords_min_cutoff ratio && flt ratio stopwords_max_cutoff)
  ∧ Filtering.check_stopwords sentence strip_characters (Some lexicon)
      ratio stopwords_max_cutoff = Ret false
  ∧ Filtering.check_stopwords sentence strip_characters (Some lexicon)
      stopwords_min_cutoff ratio = Ret false
  ∧ (flt stopwords_min_cutoff ratio = true →
     flt ratio stopwords_max_cutoff = true →
     Filtering.check_stopwords sentence strip_characters (Some lexicon)
       stopwords_min_cutoff stopwords_max_cutoff = Ret true).
Proof.
  intros Hne words ratio.
  rewrite !check_stopwords_nonempty by exact Hne.
  unfold stopwords_by_ratio. fold words. fold ratio.
  rewrite flt_irrefl, andb_false_r. simpl.
  repeat split; try reflexivity.
  by intros -> ->.
Qed.

Lemma check_stopwords_strict_bounds_witness :
  ({["the"; "of"]} : gset string) ≠ ∅
  ∧ Filtering.check_stopwords "The end of it" "" (Some {["the"; "of"]})
      (IZR 2 / IZR 4)%R 1%R = Ret false
  ∧ Filtering.check_stopwords "The end of it" "" (Some {["the"; "of"]})
      0%R (IZR 2 / IZR 4)%R = Ret false.
Proof.
  assert (({["the"; "of"]} : gset string) ≠ ∅) as Hne by (by vm_compute).
  split; [exact Hne|].
  pose proof (check_stopwords_strict_bounds
                (PF := R_PyFloat) Rltb_irrefl "The end of it" ""
                {["the"; "of"]} 0%R 1%R Hne) as (_ & _ & Hmax & _).
  pose proof (check_stopwords_strict_bounds
                (PF := R_PyFloat) Rltb_irrefl "The end of it" ""
                {["the"; "of"]} 0%R 1%R Hne) as (_ & Hmin & _ & _).
  split; [exact Hmin | exact Hmax].
Defined.

(** C6, as the code has it.  The stopword and badword checks are skipped,
    returning [True] whatever the sentence and the cutoffs, when the lexicon
    is absent and also when it is an empty set ([if stopwords:] is false for
    both); with a non-empty lexicon they compute the ratio and compare it
    with the cutoffs. *)
Theorem empty_lexicon_skips_check {F : Type} {PF : PyFloat F}
    (sentence strip_characters : string)
    (min_cutoff max_cutoff cutoff : F) :
  Filtering.check_stopwords sentence strip_characters (Some ∅)
    min_cutoff max_cutoff = Ret true
  ∧ Filtering.check_badwords sentence strip_characters (Some ∅) cutoff
    = Ret true
  ∧ Filtering.check_stopwords sentence strip_characters None
      min_cutoff max_cutoff = Ret true
  ∧ Filtering.check_badwords sentence strip_characters None cutoff = Ret true
  ∧ ∀ lexicon : gset string, lexicon ≠ ∅ →
      let words :=
        ModifyingSentences.get_words_from_sentence sentence strip_characters in
      Filtering.check_stopwords sentence strip_characters (Some lexicon)
        min_cutoff max_cutoff
      = Ret (stopwords_by_ratio words lexicon min_cutoff max_cutoff)
      ∧ Filtering.check_badwords sentence strip_characters (Some lexicon) cutoff
        = Ret (badwords_by_ratio words lexicon cutoff).
Proof.
  rewrite check_stopwords_empty_set, check_badwords_empty_set.
  repeat split; try reflexivity.
  - by apply check_stopwords_nonempty.
  - by apply check_badwords_nonempty.
Qed.

Lemma empty_lexicon_skips_check_witness :
  ({["the"]} : gset string) ≠ ∅
  ∧ Filtering.check_stopwords "a" "" (Some ∅) 0%R 1%R = Ret true
  ∧ Filtering.check_badwords "a" "" (Some {["the"]}) 0%R
    = Ret (badwords_by_ratio ["a"] {["the"]} 0%R).
Proof.
  assert (({["the"]} : gset string) ≠ ∅) as Hne by (by vm_compute).
  split; [exact Hne|].
  pose proof (empty_lexicon_skips_check (PF := R_PyFloat) "a" "" 0%R 1%R 0%R)
    as (Hstop & _ & _ & _ & Hfull).
  split; [exact Hstop|]. exact (proj2 (Hfull {["the"]} Hne)).
Defined.

(** C6, as the specification words it, does not hold: with an empty-set
    lexicon and the sentence ["a"] the ratio is [0 / 1], which is not above a
    minimum cutoff of [0] nor below a badword cutoff of [0], yet both checks
    return [True]. *)
Lemma empty_lexicon_not_compared :
  Filtering.check_stopwords "a" "" (Some ∅) 0%R 1%R
  ≠ Ret (stopwords_by_ratio
           (ModifyingSentences.get_words_from_sentence "a" "") ∅ 0%R 1%R)
  ∧ Filtering.check_badwords "a" "" (Some ∅) 0%R
    ≠ Ret (badwords_by_ratio
             (ModifyingSentences.get_words_from_sentence "a" "") ∅ 0%R).
Proof.
  rewrite check_stopwords_empty_set, check_badwords_empty_set.
  change (ModifyingSentences.get_words_from_sentence "a" "") with ["a"].
  unfold stopwords_by_ratio, badwords_by_ratio.
  change (count_in_lexicon ∅ ["a"]) with 0%nat.
  change (int_truediv (Z.of_nat 0) (Z.of_nat (length ["a"])))
    with (0 / 1)%R.
  change (flt 0%R (0 / 1)%R) with (Rltb 0 (0 / 1)).
  change (flt (0 / 1)%R 0%R) with (Rltb (0 / 1) 0).
  rewrite (Rltb_false 0 (0 / 1)) by lra. cbn [andb].
  rewrite (Rltb_false (0 / 1) 0) by lra. split; discriminate.
Qed.

(** ** Claims on [Filtering.filtering] *)

Lemma filtering_run_in_order {F : Type} {PF : PyFloat F}
    langs_id sentence cond_check_empty strip_characters
    cond_check_special_characters special_characters
    (special_characters_cutoff : F) cond_check_stopwords stopwords
    (stopwords_min_cutoff stopwords_max_cutoff : F) cond_check_badwords
    badwords (badwords_cutoff : F) cond_check_lang_id lang_oscar_id
    model_lang_id (lang_id_cutoff : F) cond_check_perplexity kenlm_model
    (perplexity_cutoff : F) :
  Filtering.filtering langs_id sentence cond_check_empty strip_characters
    cond_check_special_characters special_characters
    special_characters_cutoff cond_check_stopwords stopwords
    stopwords_min_cutoff stopwords_max_cutoff cond_check_badwords badwords
    badwords_cutoff cond_check_lang_id lang_oscar_id model_lang_id
    lang_id_cutoff cond_check_perplexity kenlm_model perplexity_cutoff
  = run_in_order
      (check_table langs_id sentence cond_check_empty strip_characters
         cond_check_special_characters special_characters
         special_characters_cutoff cond_check_stopwords stopwords
         stopwords_min_cutoff stopwords_max_cutoff cond_check_badwords badwords
         badwords_cutoff cond_check_lang_id lang_oscar_id model_lang_id
         lang_id_cutoff cond_check_perplexity kenlm_model perplexity_cutoff).
Proof.
  unfold Filtering.filtering, check_table.
  rewrite <- !unless_dropped_call. reflexivity.
Qed.

Section Engine.

Context {F : Type} {PF : PyFloat F}.

Variables (langs_id : list LangRow)
          (sentence : string)
          (cond_check_empty : bool)
          (strip_characters : string)
          (cond_check_special_characters : bool)
          (special_characters : string)
          (special_characters_cutoff : F)
          (cond_check_stopwords : bool)
          (stopwords : option (gset string))
          (stopwords_min_cutoff stopwords_max_cutoff : F)
          (cond_check_badwords : bool)
          (badwords : option (gset string))
          (badwords_cutoff : F)
          (cond_check_lang_id : bool)
          (lang_oscar_id : string)
          (model_lang_id : option (FastText F))
          (lang_id_cutoff : F)
          (cond_check_perplexity : bool)
          (kenlm_model : option (KenLM F))
          (perplexity_cutoff : F).

Local Abbreviation result :=
  (Filtering.filtering langs_id sentence cond_check_empty strip_characters
     cond_check_special_characters special_characters
     special_characters_cutoff cond_check_stopwords stopwords
     stopwords_min_cutoff stopwords_max_cutoff cond_check_badwords badwords
     badwords_cutoff cond_check_lang_id lang_oscar_id model_lang_id
     lang_id_cutoff cond_check_perplexity kenlm_model perplexity_cutoff).

Local Abbreviation checks :=
  (check_table langs_id sentence cond_check_empty strip_characters
     cond_check_special_characters special_characters
     special_characters_cutoff cond_check_stopwords stopwords
     stopwords_min_cutoff stopwords_max_cutoff cond_check_badwords badwords
     badwords_cutoff cond_check_lang_id lang_oscar_id model_lang_id
     lang_id_cutoff cond_check_perplexity kenlm_model perplexity_cutoff).

(** C1. [Filtering.filtering] runs the enabled checks in the order empty,
    special-character, stopword, badword, language-id, perplexity: the
    checks it calls are an initial segment of the enabled ones in that
    order; at the first enabled check that returns [False] it returns
    [False], having called no later check (whatever the later checks
    would do); and it returns [True], having called every enabled check,
    when each enabled check returns [True], in particular when all are
    disabled. *)
Theorem filtering_fixed_order_short_circuit :
  result = run_in_order checks
  ∧ result.1 `prefix_of` enabled_names checks
  ∧ (∀ before x after,
       checks = (before ++ x :: after)%list →
       Forall passes_or_disabled before →
       enabled x = true → verdict x = Ret false →
       result = ((enabled_names before ++ [name x])%list, Ret false))
  ∧ (Forall passes_or_disabled checks →
     result = (enabled_names checks, Ret true))
  ∧ (Forall (λ x, enabled x = false) checks → result = ([], Ret true)).
Proof.
  rewrite filtering_run_in_order. split; [reflexivity|].
  split; [apply run_in_order_prefix|]. split; [|split].
  - intros before x after -> Hbefore Hx Hv.
    by apply run_in_order_drop.
  - apply run_in_order_keep.
  - intros Hoff. rewrite run_in_order_keep.
    + unfold enabled_names. f_equal.
      induction Hoff as [|x l Hx _ IH]; simpl; [reflexivity|].
      by rewrite Hx.
    + eapply Forall_impl; [exact Hoff|].
      intros x Hx Hen. congruence.
Qed.

(** C2. With the empty check enabled, a sentence whose normalized text is
    empty is dropped by the empty check, the only check called; whenever
    the special-character check is called the normalized text has
    non-zero length; and [Filtering.filtering] never raises
    [ZeroDivisionError]. *)
Theorem empty_check_guards_division :
  cond_check_empty = true →
  (ModifyingSentences.lower_strip_sentence sentence = "" →
   result = ([CheckEmpty], Ret false))
  ∧ (CheckSpecialCharacters ∈ result.1 →
     String.length (ModifyingSentences.lower_strip_sentence sentence) ≠ 0)
  ∧ result.2 ≠ Raise ZeroDivisionError.
Proof.
  intros Hon. rewrite filtering_run_in_order.
  assert (∀ before x after,
    checks = (before ++ x :: after)%list →
    Forall passes_or_disabled before →
    name x ≠ CheckEmpty →
    String.length (ModifyingSentences.lower_strip_sentence sentence) ≠ 0)
    as Hguard.
  { intros before x after Heq Hbefore Hname.
    unfold check_table in Heq.
    destruct before as [|b before]; simplify_eq/=; try done.
    apply Forall_cons_1 in Hbefore as [Hb _].
    specialize (Hb eq_refl). simpl in Hb. injection Hb as Hb.
    unfold Filtering.check_empty in Hb.
    apply andb_true_iff in Hb as [Hlen _].
    apply Nat.ltb_lt in Hlen. lia. }
  split; [|split].
  - intros Hempty. unfold check_table. simpl. rewrite Hon.
    unfold verdict. simpl. unfold Filtering.check_empty.
    rewrite Hempty. reflexivity.
  - intros Hcalled.
    apply run_in_order_called in Hcalled
      as (before & x & after & Heq & Hname & _ & Hbefore).
    apply (Hguard before x after Heq Hbefore). by rewrite Hname.
  - intros Hraise.
    apply run_in_order_stopped in Hraise
      as (before & x & after & Heq & Hbefore & _ & Hv & _); [|done].
    pose proof (Hguard before x after Heq Hbefore) as Hlen.
    unfold check_table in Heq.
    destruct before as [|? before]; simplify_eq/=.
    destruct before as [|? before]; simplify_eq/=.
    { rewrite check_special_characters_value in Hv by (by apply Hlen).
      discriminate. }
    destruct before as [|? before]; simplify_eq/=.
    { destruct (check_stopwords_returns sentence strip_characters stopwords
                  stopwords_min_cutoff stopwords_max_cutoff) as [b Hb].
      congruence. }
    destruct before as [|? before]; simplify_eq/=.
    { destruct (check_badwords_returns sentence strip_characters badwords
                  badwords_cutoff) as [b Hb].
      congruence. }
    destruct before as [|? before]; simplify_eq/=.
    { by eapply check_lang_id_no_zero_division. }
    destruct before as [|? before]; simplify_eq/=.
    { by apply check_perplexity_raises in Hv as [? _]. }
    destruct before; discriminate.
Qed.

(** C8. Without a language-identification model, [Filtering.check_lang_id]
    returns [True] for every sentence, so [Filtering.filtering] does not
    return [False] from the language-id check: if it returns [False] the
    last check called is another one, and its outcome is the outcome it
    has with the language-id check switched off. *)
Theorem check_lang_id_skipped_without_model :
  model_lang_id = None →
  Filtering.check_lang_id langs_id sentence strip_characters lang_oscar_id
    model_lang_id lang_id_cutoff = Ret true
  ∧ (result.2 = Ret false → last result.1 ≠ Some CheckLangId)
  ∧ result.2
    = (Filtering.filtering langs_id sentence cond_check_empty
         strip_characters cond_check_special_characters special_characters
         special_characters_cutoff cond_check_stopwords stopwords
         stopwords_min_cutoff stopwords_max_cutoff cond_check_badwords
         badwords badwords_cutoff false lang_oscar_id model_lang_id
         lang_id_cutoff cond_check_perplexity kenlm_model
         perplexity_cutoff).2.
Proof.
  intros ->. split; [reflexivity|]. split.
  - rewrite filtering_run_in_order. intros Hdrop.
    apply run_in_order_stopped in Hdrop
      as (before & x & after & Heq & _ & _ & Hv & ->); [|done].
    rewrite last_snoc. intros [= Hname].
    unfold check_table in Heq.
    do 6 (destruct before as [|? before]; simplify_eq/=).
    destruct before; discriminate.
  - rewrite !filtering_run_in_order. unfold check_table.
    apply (run_in_order_disable_passing
             [ (cond_check_empty, CheckEmpty, _);
               (cond_check_special_characters, CheckSpecialCharacters, _);
               (cond_check_stopwords, CheckStopwords, _);
               (cond_check_badwords, CheckBadwords, _) ]
             (cond_check_lang_id, CheckLangId, Ret true)).
    reflexivity.
Qed.

End Engine.

Lemma filtering_fixed_order_short_circuit_witness :
  filtering_xx "aa bb cc !!! @@@ ###" false
  = ([CheckEmpty; CheckSpecialCharacters], Ret false).
Proof.
  pose proof (filtering_fixed_order_short_circuit
                (PF := R_PyFloat) [] "aa bb cc !!! @@@ ###"
                true ".,!?" true "!@#" (3 / 10)%R false None 0%R 1%R
                false None 1%R false "xx" None (1 / 2)%R
                false None 1000%R) as (_ & _ & Hdrop & _).
  apply (Hdrop
           [(true, CheckEmpty, Ret true)]
           (true, CheckSpecialCharacters,
            Ret (Rltb (IZR 9 / IZR 20) (3 / 10)))
           [(false, CheckStopwords, Ret true);
            (false, CheckBadwords, Ret true);
            (false, CheckLangId, Ret true);
            (false, CheckPerplexity, Ret true)]).
  - reflexivity.
  - constructor; [by intros _ | constructor].
  - reflexivity.
  - unfold verdict. simpl. rewrite Rltb_false by lra. reflexivity.
Defined.

Lemma empty_check_guards_division_witness :
  ModifyingSentences.lower_strip_sentence "   " = ""
  ∧ filtering_xx "   " false = ([CheckEmpty], Ret false).
Proof.
  split; [reflexivity|].
  apply (empty_check_guards_division
           (PF := R_PyFloat) [] "   "
           true ".,!?" true "!@#" (3 / 10)%R false None 0%R 1%R
           false None 1%R false "xx" None (1 / 2)%R
           false None 1000%R eq_refl).
  reflexivity.
Defined.

Lemma check_lang_id_skipped_without_model_witness :
  Filtering.check_lang_id [] "Hello world" ".,!?" "xx"
    (None : option (FastText R)) (1 / 2)%R = Ret true
  ∧ (filtering_xx "Hello world" true).2 = (filtering_xx "Hello world" false).2.
Proof.
  pose proof (check_lang_id_skipped_without_model
                (PF := R_PyFloat) [] "Hello world"
                true ".,!?" true "!@#" (3 / 10)%R false None 0%R 1%R
                false None 1%R true "xx" None (1 / 2)%R
                false None 1000%R eq_refl) as (Hskip & _ & Hsame).
  split; [exact Hskip | exact Hsame].
Defined.

(** ** The transformer on dataset records *)

(** C10. On a record with a str [text] field, [OscarModifyingSentences]'s
    [__call__] returns the record with [text] replaced by the transformed
    sentence; every other field is carried through with its value, and no
    field is added or removed. *)
Theorem call_rewrites_only_text {F : Type}
    (self : OscarModifyingSentences.t F)
    (example : gmap string value) (sentence : string) :
  example !! "text" = Some (VStr sentence) →
  ∃ example',
    OscarModifyingSentences.call self example = Ret example'
    ∧ example' !! "text"
      = Some (VStr (ModifyingSentences.modifying_sentences
                      sentence
                      (cond_remove_words_with_incorrect_substrings
                         (OscarModifyingSentences.param self))
                      (incorrect_word_substrings
                         (OscarModifyingSentences.param self))
                      (cond_remove_long_words
                         (OscarModifyingSentences.param self))
                      (length_word_cutoff
                         (OscarModifyingSentences.param self))))
    ∧ (∀ field, field ≠ "text" → example' !! field = example !! field)
    ∧ dom example' = dom example.
Proof.
  intros Htext. unfold OscarModifyingSentences.call. rewrite Htext.
  eexists. split; [reflexivity|]. split; [|split].
  - apply lookup_insert_eq.
  - intros field Hfield. by apply lookup_insert_ne.
  - rewrite dom_insert_L.
    assert ("text" ∈ dom example) as Hin by (apply elem_of_dom; eauto).
    apply set_eq. intros field. rewrite elem_of_union, elem_of_singleton.
    split; [intros [->|Hf]; assumption | by right].
Qed.

Lemma call_rewrites_only_text_witness :
  record_xx !! "text" = Some (VStr "see http://a.b now")
  ∧ ∃ example',
      OscarModifyingSentences.call transformer_xx record_xx = Ret example'
      ∧ example' !! "text" = Some (VStr "see now")
      ∧ (∀ field, field ≠ "text" → example' !! field = record_xx !! field)
      ∧ dom example' = dom record_xx.
Proof.
  assert (record_xx !! "text" = Some (VStr "see http://a.b now")) as Htext
    by reflexivity.
  split; [exact Htext|].
  exact (call_rewrites_only_text transformer_xx record_xx _ Htext).
Defined.

(** ** Worked examples *)

Example split_ex : PyStr.split PyStr.space "a  b " = ["a"; ""; "b"; ""].
Proof. reflexivity. Qed.

Example split_empty_ex : PyStr.split PyStr.space "" = [""].
Proof. reflexivity. Qed.

Example split_whitespace_ex :
  PyStr.split_whitespace "  ab  c d " = ["ab"; "c"; "d"].
Proof. reflexivity. Qed.

Example replace_ex :
  PyStr.replace "__label__" "" "__label__en" = "en"
  ∧ PyStr.replace "ab" "x" "aabab" = "axx".
Proof. split; reflexivity. Qed.

Example lower_strip_ex :
  ModifyingSentences.lower_strip_sentence "  Ab C " = "ab c".
Proof. reflexivity. Qed.

Example get_words_ex :
  ModifyingSentences.get_words_from_sentence " Hello,  World! " ".,!?"
  = ["hello"; ""; "world"].
Proof. reflexivity. Qed.

Example modifying_sentences_ex :
  ModifyingSentences.modifying_sentences
    "see http://a.b  now abcdefghij" true ["http"; "www"] true 10
  = "see  now".
Proof. reflexivity. Qed.

(** All words removed: the join of no words is the empty string, which the
    transformer maps to itself. *)
Example modifying_sentences_all_removed_ex :
  ModifyingSentences.modifying_sentences "www.a.b" true ["www"] true 10 = ""
  ∧ ModifyingSentences.modifying_sentences "" true ["www"] true 10 = ""
  ∧ ModifyingSentences.modifying_sentences "" true [""] true 0 = "".
Proof. repeat split; reflexivity. Qed.

(** A two-line document with log scores [-3] and [-1] and token counts [2]
    and [1]: the metric is [10 ** (4 / 5)]. *)
Example get_perplexity_score_two_lines_ex :
  let kenlm_model : KenLM R :=
    {| score line := (- IZR (Z.of_nat (String.length line)))%R |} in
  Filtering.get_perplexity_score ("a b" +:+ String PyStr.newline "c")
    kenlm_model
  = Ret (Rpower 10 (4 / 5)).
Proof.
  intros kenlm_model. rewrite get_perplexity_score_value.
  change (PyStr.split PyStr.newline ("a b" +:+ String PyStr.newline "c"))
    with ["a b"; "c"].
  unfold float_pow10, fsum, padded_lengths. simpl.
  change (Z.of_nat 2 + 1 + (Z.of_nat 1 + 1 + 0))%Z with 5%Z.
  change (Z.of_nat 3) with 3%Z. change (Z.of_nat 1) with 1%Z.
  f_equal. f_equal. lra.
Qed.

(** The special-character check raises when the empty check is off and the
    normalized text is empty. *)
Example check_special_characters_empty_ex :
  Filtering.check_special_characters "  " "!@#" (3 / 10)%R
  = Raise ZeroDivisionError.
Proof. reflexivity. Qed.


(** * Further properties of the code *)

(** ** Strings *)

Lemma append_cons (c : ascii) (a b : string) :
  String c a +:+ b = String c (a +:+ b).
Proof. reflexivity. Qed.

Lemma append_nil_r (s : string) : s +:+ "" = s.
Proof.
  induction s as [|c s IH]; [reflexivity | by rewrite append_cons, IH].
Qed.

Lemma append_assoc (a b c : string) : (a +:+ b) +:+ c = a +:+ (b +:+ c).
Proof.
  induction a as [|x a IH]; [reflexivity | by rewrite !append_cons, IH].
Qed.

Lemma length_append (a b : string) :
  String.length (a +:+ b) = String.length a + String.length b.
Proof.
  induction a as [|x a IH]; [reflexivity|].
  rewrite append_cons. simpl. by rewrite IH.
Qed.

Lemma join_cons_char (sep : string) (c : ascii) (w : string)
    (ws : list string) :
  PyStr.join sep (String c w :: ws) = String c (PyStr.join sep (w :: ws)).
Proof. destruct ws; reflexivity. Qed.

Lemma join_split (sep : ascii) (s : string) :
  PyStr.join (String sep "") (PyStr.split sep s) = s.
Proof.
  induction s as [|c s IH]; [reflexivity|]. simpl.
  pose proof (split_not_nil sep s) as Hne.
  destruct (Ascii.eqb_spec c sep) as [->|_].
  - destruct (PyStr.split sep s) as [|w ws]; [done|].
    change (PyStr.join (String sep "") ("" :: w :: ws))
      with (String sep (PyStr.join (String sep "") (w :: ws))).
    by rewrite IH.
  - destruct (PyStr.split sep s) as [|w ws]; [done|].
    by rewrite join_cons_char, IH.
Qed.

Lemma split_length (sep : ascii) (s : string) :
  length (PyStr.split sep s) = S (count_chars_in (String sep "") s).
Proof.
  induction s as [|c s IH]; [reflexivity|]. simpl.
  pose proof (split_not_nil sep s) as Hne.
  rewrite orb_false_r.
  destruct (Ascii.eqb c sep); simpl.
  - by rewrite IH.
  - destruct (PyStr.split sep s) as [|w ws]; [done|]. exact IH.
Qed.

Lemma join_length_cons (sep w : string) (ws : list string) :
  String.length (PyStr.join sep (w :: ws))
  = String.length w
    + match ws with
      | [] => 0
      | _ => String.length sep + String.length (PyStr.join sep ws)
      end.
Proof.
  destruct ws as [|w' ws]; [simpl; lia|].
  change (PyStr.join sep (w :: w' :: ws))
    with (w +:+ sep +:+ PyStr.join sep (w' :: ws)).
  rewrite !length_append. lia.
Qed.

Lemma join_length_filter (sep : string) (keep : string → bool)
    (ws : list string) :
  (String.length (PyStr.join sep (List.filter keep ws))
   ≤ String.length (PyStr.join sep ws))%nat.
Proof.
  induction ws as [|w ws IH]; [done|].
  rewrite (join_length_cons sep w ws). simpl List.filter.
  destruct (keep w).
  - rewrite join_length_cons.
    destruct (List.filter keep ws) eqn:Hf, ws; simpl in *; try lia.
    discriminate.
  - destruct ws; simpl in *; lia.
Qed.

Lemma prefix_spec (p s : string) :
  String.prefix p s = true ↔ ∃ post, s = p +:+ post.
Proof.
  revert s. induction p as [|c p IH]; intros s.
  - split; [intros _; by exists s | intros _; by destruct s].
  - destruct s as [|d s]; simpl.
    + split; [done | intros [post [=]]].
    + destruct (ascii_dec c d) as [->|Hne].
      * rewrite IH. split; intros [post Hpost]; exists post.
        -- by rewrite append_cons, <- Hpost.
        -- rewrite append_cons in Hpost. congruence.
      * split; [done | intros [post Hpost]].
        rewrite append_cons in Hpost. congruence.
Qed.

Lemma contains_nil (sub : string) :
  PyStr.contains sub "" = String.prefix sub "" || false.
Proof. reflexivity. Qed.

Lemma contains_cons (sub : string) (c : ascii) (s : string) :
  PyStr.contains sub (String c s)
  = String.prefix sub (String c s) || PyStr.contains sub s.
Proof. reflexivity. Qed.

Lemma contains_spec (sub s : string) :
  PyStr.contains sub s = true ↔ substring_of sub s.
Proof.
  unfold substring_of. split.
  - induction s as [|c s IH].
    + rewrite contains_nil, orb_true_iff. intros [Hp|[=]].
      apply prefix_spec in Hp as [post ->]. by exists "", post.
    + rewrite contains_cons, orb_true_iff. intros [Hp|Hc].
      * apply prefix_spec in Hp as [post Hpost]. exists "", post.
        by rewrite Hpost.
      * destruct (IH Hc) as (pre & post & ->). by exists (String c pre), post.
  - intros (pre & post & ->). induction pre as [|c pre IH].
    + change ("" +:+ sub +:+ post) with (sub +:+ post).
      assert (String.prefix sub (sub +:+ post) = true) as Hp
        by (apply prefix_spec; by exists post).
      destruct (sub +:+ post) as [|c t].
      * by rewrite contains_nil, Hp.
      * by rewrite contains_cons, Hp.
    + rewrite append_cons, contains_cons, IH. apply orb_true_r.
Qed.

(** ** The transformer, word by word *)

Lemma filter_filter (keep keep' : string → bool) (ws : list string) :
  List.filter keep' (List.filter keep ws)
  = List.filter (λ w, keep w && keep' w) ws.
Proof.
  induction ws as [|w ws IH]; [reflexivity|]. simpl.
  destruct (keep w); simpl; [|exact IH].
  destruct (keep' w); by rewrite IH.
Qed.

Lemma filter_true (ws : list string) : List.filter (λ _, true) ws = ws.
Proof. induction ws as [|w ws IH]; simpl; [reflexivity | by rewrite IH]. Qed.

Lemma filter_ext_bool (keep keep' : string → bool) (ws : list string) :
  (∀ w, keep w = keep' w) → List.filter keep ws = List.filter keep' ws.
Proof.
  intros Heq. induction ws as [|w ws IH]; simpl; [reflexivity|].
  by rewrite Heq, IH.
Qed.

Lemma filter_elem_of (keep : string → bool) (ws : list string) (w : string) :
  w ∈ List.filter keep ws ↔ w ∈ ws ∧ keep w = true.
Proof.
  rewrite !list_elem_of_In, List.filter_In. reflexivity.
Qed.

(** The transformer keeps the words of [sentence.split(" ")] that pass the
    enabled removals and joins them with single spaces. *)
Lemma modifying_sentences_words (sentence : string) (c1 : bool)
    (substrs : list string) (c2 : bool) (cutoff : Z) :
  ModifyingSentences.modifying_sentences sentence c1 substrs c2 cutoff
  = PyStr.join " "
      (List.filter (kept_word c1 substrs c2 cutoff)
                   (PyStr.split PyStr.space sentence)).
Proof.
  unfold ModifyingSentences.modifying_sentences, kept_word.
  rewrite remove_words_with_incorrect_substrings_keep_words.
  rewrite !remove_long_words_keep_words.
  pose proof (split_sep_free PyStr.space sentence) as Hfree.
  destruct c1, c2.
  - change (keep_words (ModifyingSentences.no_incorrect_substring substrs)
              sentence)
      with (PyStr.join " "
              (List.filter (ModifyingSentences.no_incorrect_substring substrs)
                           (PyStr.split PyStr.space sentence))).
    rewrite keep_words_join by (apply filter_sep_free, Hfree).
    by rewrite filter_filter.
  - unfold keep_words. f_equal. apply filter_ext_bool.
    intros w. by rewrite andb_true_r.
  - unfold keep_words. reflexivity.
  - rewrite filter_true.
    change " " with (String PyStr.space "") at 1. by rewrite join_split.
Qed.

(** X1. A sentence none of whose words is removed comes back unchanged:
    if every word of [sentence.split(" ")] is free of the forbidden
    substrings (when that pass is on) and shorter than the cutoff (when that
    pass is on), [modifying_sentences] returns the sentence itself, with
    its runs of spaces. *)
Theorem modifying_sentences_clean_unchanged (sentence : string)
    (cond_remove_words_with_incorrect_substrings : bool)
    (incorrect_word_substrings : list string)
    (cond_remove_long_words : bool) (length_word_cutoff : Z) :
  (cond_remove_words_with_incorrect_substrings = true →
   ∀ word i_substr,
     word ∈ PyStr.split PyStr.space sentence →
     i_substr ∈ incorrect_word_substrings →
     ¬ substring_of i_substr word) →
  (cond_remove_long_words = true →
   ∀ word,
     word ∈ PyStr.split PyStr.space sentence →
     (Z.of_nat (String.length word) < length_word_cutoff)%Z) →
  ModifyingSentences.modifying_sentences sentence
    cond_remove_words_with_incorrect_substrings incorrect_word_substrings
    cond_remove_long_words length_word_cutoff
  = sentence.
Proof.
  intros Hclean Hshort. rewrite modifying_sentences_words.
  rewrite filter_all.
  - change " " with (String PyStr.space "") at 1. apply join_split.
  - apply Forall_forall. intros w Hw. unfold kept_word.
    apply andb_true_iff. split.
    + destruct cond_remove_words_with_incorrect_substrings; [|reflexivity].
      unfold ModifyingSentences.no_incorrect_substring.
      apply forallb_forall. intros f Hf.
      apply negb_true_iff, not_true_iff_false. intros Hc.
      apply contains_spec in Hc.
      apply (Hclean eq_refl w f Hw); [by apply list_elem_of_In | exact Hc].
    + destruct cond_remove_long_words; [|reflexivity].
      apply Z.ltb_lt. by apply Hshort.
Qed.

Lemma modifying_sentences_clean_unchanged_witness :
  ModifyingSentences.modifying_sentences "a  bc " false ["b"] true 3
  = "a  bc ".
Proof.
  apply modifying_sentences_clean_unchanged; [discriminate|].
  intros _ word Hword.
  change (PyStr.split PyStr.space "a  bc ") with ["a"; ""; "bc"; ""] in Hword.
  repeat (apply elem_of_cons in Hword as [->|Hword]; [simpl; lia|]).
  by apply elem_of_nil in Hword.
Defined.

(** X2. The two removals commute: dropping the long words and then the
    words with a forbidden substring gives the same sentence as the order
    [modifying_sentences] uses. *)
Theorem removals_commute (sentence : string)
    (incorrect_word_substrings : list string) (length_word_cutoff : Z) :
  ModifyingSentences.remove_long_words
    (ModifyingSentences.remove_words_with_incorrect_substrings
       sentence incorrect_word_substrings)
    length_word_cutoff
  = ModifyingSentences.remove_words_with_incorrect_substrings
      (ModifyingSentences.remove_long_words sentence length_word_cutoff)
      incorrect_word_substrings.
Proof.
  rewrite !remove_words_with_incorrect_substrings_keep_words.
  rewrite !remove_long_words_keep_words.
  pose proof (split_sep_free PyStr.space sentence) as Hfree.
  set (ok := ModifyingSentences.no_incorrect_substring _).
  set (short := ModifyingSentences.is_short _).
  change (keep_words ok sentence)
    with (PyStr.join " " (List.filter ok (PyStr.split PyStr.space sentence))).
  change (keep_words short sentence)
    with (PyStr.join " "
            (List.filter short (PyStr.split PyStr.space sentence))).
  rewrite !keep_words_join by (apply filter_sep_free, Hfree).
  rewrite !filter_filter. f_equal. apply filter_ext_bool.
  intros w. apply andb_comm.
Qed.

(** X3. The transformer never lengthens a sentence. *)
Theorem modifying_sentences_length (sentence : string)
    (cond_remove_words_with_incorrect_substrings : bool)
    (incorrect_word_substrings : list string)
    (cond_remove_long_words : bool) (length_word_cutoff : Z) :
  (String.length
     (ModifyingSentences.modifying_sentences sentence
        cond_remove_words_with_incorrect_substrings incorrect_word_substrings
        cond_remove_long_words length_word_cutoff)
   ≤ String.length sentence)%nat.
Proof.
  rewrite modifying_sentences_words.
  rewrite <- (join_split PyStr.space sentence) at 2.
  apply join_length_filter.
Qed.

(** X4. The words of a non-empty result are words of the input that passed:
    each is a word of [sentence.split(" ")], contains none of the forbidden
    substrings when that pass is on, and is shorter than the cutoff when
    that pass is on.  (An empty result splits into one empty word, which is
    no word of the input when every word was removed.) *)
Theorem modifying_sentences_result_words (sentence : string)
    (cond_remove_words_with_incorrect_substrings : bool)
    (incorrect_word_substrings : list string)
    (cond_remove_long_words : bool) (length_word_cutoff : Z)
    (word : string) :
  let result :=
    ModifyingSentences.modifying_sentences sentence
      cond_remove_words_with_incorrect_substrings incorrect_word_substrings
      cond_remove_long_words length_word_cutoff in
  result ≠ "" →
  word ∈ PyStr.split PyStr.space result →
  word ∈ PyStr.split PyStr.space sentence
  ∧ (cond_remove_words_with_incorrect_substrings = true →
     ∀ i_substr, i_substr ∈ incorrect_word_substrings →
                 ¬ substring_of i_substr word)
  ∧ (cond_remove_long_words = true →
     (Z.of_nat (String.length word) < length_word_cutoff)%Z).
Proof.
  intros result. unfold result. rewrite modifying_sentences_words.
  set (ws := List.filter _ _). intros Hne Hword.
  assert (ws ≠ []) as Hws by (intros Hnil; by rewrite Hnil in Hne).
  change " " with (String PyStr.space "") in Hword.
  rewrite split_join in Hword;
    [| exact Hws | apply filter_sep_free, split_sep_free].
  apply filter_elem_of in Hword as [Hin Hkept].
  split; [exact Hin|].
  unfold kept_word in Hkept. apply andb_true_iff in Hkept as [Hok Hshort].
  split.
  - intros ->. intros f Hf Hsub.
    unfold ModifyingSentences.no_incorrect_substring in Hok.
    rewrite forallb_forall in Hok.
    apply list_elem_of_In, Hok, negb_true_iff in Hf.
    apply contains_spec in Hsub. congruence.
  - intros ->. by apply Z.ltb_lt.
Qed.

Lemma modifying_sentences_result_words_witness :
  ModifyingSentences.modifying_sentences "see www.a.b now" true ["www"] true 10
  ≠ ""
  ∧ "now" ∈ PyStr.split PyStr.space
              (ModifyingSentences.modifying_sentences
                 "see www.a.b now" true ["www"] true 10)
  ∧ ¬ substring_of "www" "now".
Proof.
  assert (ModifyingSentences.modifying_sentences
            "see www.a.b now" true ["www"] true 10 ≠ "") as Hne by done.
  assert ("now" ∈ PyStr.split PyStr.space
                    (ModifyingSentences.modifying_sentences
                       "see www.a.b now" true ["www"] true 10)) as Hin.
  { change (PyStr.split _ _) with ["see"; "now"].
    apply list_elem_of_further, list_elem_of_here. }
  split; [exact Hne|]. split; [exact Hin|].
  pose proof (modifying_sentences_result_words
                "see www.a.b now" true ["www"] true 10 "now" Hne Hin)
    as (_ & Hclean & _).
  apply (Hclean eq_refl). apply list_elem_of_here.
Defined.

(** ** Normalization: [lower] and [strip] *)

Lemma rev_app_spec (s1 s2 : string) :
  String.rev_app s1 s2 = String.rev s1 +:+ s2.
Proof.
  unfold String.rev. revert s2.
  induction s1 as [|c s1 IH]; intros s2; [reflexivity|]. simpl.
  rewrite (IH (String c s2)), (IH (String c "")).
  by rewrite append_assoc.
Qed.

Lemma rev_cons (c : ascii) (s : string) :
  String.rev (String c s) = String.rev s +:+ String c "".
Proof. unfold String.rev at 1. simpl. apply rev_app_spec. Qed.

Lemma rev_snoc (s : string) (c : ascii) :
  String.rev (s +:+ String c "") = String c (String.rev s).
Proof.
  induction s as [|d s IH]; [reflexivity|].
  by rewrite append_cons, !rev_cons, IH.
Qed.

Section Strip.

Variable p : ascii → bool.

Lemma lstrip_idempotent (s : string) :
  PyStr.lstrip_by p (PyStr.lstrip_by p s) = PyStr.lstrip_by p s.
Proof.
  induction s as [|c s IH]; [reflexivity|]. simpl.
  destruct (p c) eqn:Hc; [exact IH|]. simpl. by rewrite Hc.
Qed.

Lemma lstrip_snoc (s : string) (c : ascii) :
  PyStr.lstrip_by p (s +:+ String c "")
  = match PyStr.lstrip_by p s with
    | "" => if p c then "" else String c ""
    | r => r +:+ String c ""
    end.
Proof.
  induction s as [|d s IH]; [reflexivity|].
  rewrite append_cons. simpl. destruct (p d); [exact IH | reflexivity].
Qed.

(** [rstrip] as a recursion from the left. *)
Lemma rstrip_cons (c : ascii) (s : string) :
  PyStr.rstrip_by p (String c s)
  = match PyStr.rstrip_by p s with
    | "" => if p c then "" else String c ""
    | r => String c r
    end.
Proof.
  unfold PyStr.rstrip_by. rewrite rev_cons, lstrip_snoc.
  destruct (PyStr.lstrip_by p (String.rev s)) as [|d r].
  - by destruct (p c).
  - rewrite rev_snoc, (rev_cons d r). by destruct (String.rev r).
Qed.

Lemma rstrip_nil : PyStr.rstrip_by p "" = "".
Proof. reflexivity. Qed.

Lemma rstrip_idempotent (s : string) :
  PyStr.rstrip_by p (PyStr.rstrip_by p s) = PyStr.rstrip_by p s.
Proof.
  induction s as [|c s IH]; [reflexivity|].
  rewrite rstrip_cons.
  destruct (PyStr.rstrip_by p s) as [|d r] eqn:Hr.
  - destruct (p c) eqn:Hc; [reflexivity|].
    by rewrite rstrip_cons, rstrip_nil, Hc.
  - by rewrite rstrip_cons, IH.
Qed.

Lemma lstrip_rstrip (s : string) :
  PyStr.lstrip_by p (PyStr.rstrip_by p s)
  = PyStr.rstrip_by p (PyStr.lstrip_by p s).
Proof.
  induction s as [|c s IH]; [reflexivity|].
  rewrite rstrip_cons. simpl PyStr.lstrip_by at 2.
  destruct (p c) eqn:Hc.
  - rewrite <- IH.
    destruct (PyStr.rstrip_by p s) as [|d r]; [reflexivity|].
    simpl. by rewrite Hc.
  - rewrite rstrip_cons.
    destruct (PyStr.rstrip_by p s) as [|d r]; simpl; by rewrite Hc.
Qed.

Lemma strip_by_idempotent (s : string) :
  PyStr.strip_by p (PyStr.strip_by p s) = PyStr.strip_by p s.
Proof.
  unfold PyStr.strip_by.
  by rewrite lstrip_rstrip, lstrip_idempotent, rstrip_idempotent.
Qed.

End Strip.

Lemma isspace_lower_char (c : ascii) :
  PyStr.isspace (PyStr.lower_char c) = PyStr.isspace c.
Proof. destruct c as [[] [] [] [] [] [] [] []]; reflexivity. Qed.

Lemma lower_char_idempotent (c : ascii) :
  PyStr.lower_char (PyStr.lower_char c) = PyStr.lower_char c.
Proof. destruct c as [[] [] [] [] [] [] [] []]; reflexivity. Qed.

Lemma lower_idempotent (s : string) :
  PyStr.lower (PyStr.lower s) = PyStr.lower s.
Proof.
  induction s as [|c s IH]; [reflexivity|]. simpl.
  by rewrite lower_char_idempotent, IH.
Qed.

Lemma lower_lstrip (s : string) :
  PyStr.lower (PyStr.lstrip_by PyStr.isspace s)
  = PyStr.lstrip_by PyStr.isspace (PyStr.lower s).
Proof.
  induction s as [|c s IH]; [reflexivity|]. simpl.
  rewrite isspace_lower_char. by destruct (PyStr.isspace c).
Qed.

Lemma lower_rstrip (s : string) :
  PyStr.lower (PyStr.rstrip_by PyStr.isspace s)
  = PyStr.rstrip_by PyStr.isspace (PyStr.lower s).
Proof.
  induction s as [|c s IH]; [reflexivity|].
  simpl PyStr.lower at 2. rewrite !rstrip_cons, <- IH, isspace_lower_char.
  destruct (PyStr.rstrip_by PyStr.isspace s); [|reflexivity].
  by destruct (PyStr.isspace c).
Qed.

Lemma lower_strip (s : string) :
  PyStr.lower (PyStr.strip s) = PyStr.strip (PyStr.lower s).
Proof.
  unfold PyStr.strip, PyStr.strip_by. by rewrite lower_rstrip, lower_lstrip.
Qed.

Lemma strip_idempotent (s : string) : PyStr.strip (PyStr.strip s) = PyStr.strip s.
Proof. apply strip_by_idempotent. Qed.

Lemma lower_strip_sentence_strip (sentence : string) :
  ModifyingSentences.lower_strip_sentence (PyStr.strip sentence)
  = ModifyingSentences.lower_strip_sentence sentence.
Proof.
  unfold ModifyingSentences.lower_strip_sentence.
  by rewrite lower_strip, strip_idempotent.
Qed.

Lemma lower_strip_sentence_idempotent (sentence : string) :
  ModifyingSentences.lower_strip_sentence
    (ModifyingSentences.lower_strip_sentence sentence)
  = ModifyingSentences.lower_strip_sentence sentence.
Proof.
  unfold ModifyingSentences.lower_strip_sentence.
  by rewrite lower_strip, lower_idempotent, strip_idempotent.
Qed.

(** ** The tokenizer and the normalized text *)

(** X5. The tokenizer returns one token more than the normalized text has
    spaces: empty tokens between adjacent spaces are kept, and words are not
    split on other whitespace. *)
Theorem get_words_from_sentence_length (sentence strip_characters : string) :
  length (ModifyingSentences.get_words_from_sentence
            sentence strip_characters)
  = S (count_chars_in " "
         (ModifyingSentences.lower_strip_sentence sentence)).
Proof.
  unfold ModifyingSentences.get_words_from_sentence.
  rewrite length_map. apply split_length.
Qed.

(** X6. Normalizing is idempotent, and the five checks that read the
    normalized text do not see the difference between a sentence, the
    stripped sentence and the normalized sentence. *)
Theorem checks_see_normalized_text {F : Type} {PF : PyFloat F}
    (langs_id : list LangRow)
    (sentence strip_characters special_characters lang_oscar_id : string)
    (stopwords badwords : option (gset string))
    (model_lang_id : option (FastText F))
    (special_characters_cutoff stopwords_min_cutoff stopwords_max_cutoff
       badwords_cutoff lang_id_cutoff : F) :
  let normalized := ModifyingSentences.lower_strip_sentence sentence in
  ModifyingSentences.lower_strip_sentence normalized = normalized
  ∧ ∀ s, s = PyStr.strip sentence ∨ s = normalized →
      Filtering.check_empty s strip_characters
      = Filtering.check_empty sentence strip_characters
      ∧ Filtering.check_special_characters
          s special_characters special_characters_cutoff
        = Filtering.check_special_characters
            sentence special_characters special_characters_cutoff
      ∧ Filtering.check_stopwords s strip_characters stopwords
          stopwords_min_cutoff stopwords_max_cutoff
        = Filtering.check_stopwords sentence strip_characters stopwords
            stopwords_min_cutoff stopwords_max_cutoff
      ∧ Filtering.check_badwords s strip_characters badwords badwords_cutoff
        = Filtering.check_badwords
            sentence strip_characters badwords badwords_cutoff
      ∧ Filtering.check_lang_id langs_id s strip_characters lang_oscar_id
          model_lang_id lang_id_cutoff
        = Filtering.check_lang_id langs_id sentence strip_characters
            lang_oscar_id model_lang_id lang_id_cutoff.
Proof.
  intros normalized. split; [apply lower_strip_sentence_idempotent|].
  intros s Hs.
  assert (ModifyingSentences.lower_strip_sentence s = normalized) as Hnorm.
  { destruct Hs as [-> | ->];
      [apply lower_strip_sentence_strip
      | apply lower_strip_sentence_idempotent]. }
  unfold Filtering.check_empty, Filtering.check_special_characters,
    Filtering.check_stopwords, Filtering.check_badwords,
    Filtering.check_lang_id, ModifyingSentences.get_words_from_sentence.
  rewrite Hnorm. done.
Qed.

Lemma checks_see_normalized_text_witness :
  Filtering.check_special_characters "ab!" "!" (1 / 2)%R
  = Filtering.check_special_characters "  Ab! " "!" (1 / 2)%R.
Proof.
  pose proof (checks_see_normalized_text (PF := R_PyFloat)
                [] "  Ab! " "" "!" "xx" None None None
                (1 / 2)%R 0%R 1%R 1%R 0%R) as [_ Hsame].
  exact (proj1 (proj2 (Hsame "ab!" (or_intror eq_refl)))).
Defined.

(** X7. When the perplexity check is off or no KenLM model is given,
    [Filtering.filtering] computes the same thing, calls included, on a
    sentence and on the stripped sentence.  (The perplexity score reads the
    sentence as given: a trailing newline is one more line.) *)
Theorem filtering_strip {F : Type} {PF : PyFloat F}
    (langs_id : list LangRow)
    (sentence : string)
    (cond_check_empty : bool)
    (strip_characters : string)
    (cond_check_special_characters : bool)
    (special_characters : string)
    (special_characters_cutoff : F)
    (cond_check_stopwords : bool)
    (stopwords : option (gset string))
    (stopwords_min_cutoff stopwords_max_cutoff : F)
    (cond_check_badwords : bool)
    (badwords : option (gset string))
    (badwords_cutoff : F)
    (cond_check_lang_id : bool)
    (lang_oscar_id : string)
    (model_lang_id : option (FastText F))
    (lang_id_cutoff : F)
    (cond_check_perplexity : bool)
    (kenlm_model : option (KenLM F))
    (perplexity_cutoff : F) :
  cond_check_perplexity = false ∨ kenlm_model = None →
  Filtering.filtering langs_id (PyStr.strip sentence) cond_check_empty
    strip_characters cond_check_special_characters special_characters
    special_characters_cutoff cond_check_stopwords stopwords
    stopwords_min_cutoff stopwords_max_cutoff cond_check_badwords badwords
    badwords_cutoff cond_check_lang_id lang_oscar_id model_lang_id
    lang_id_cutoff cond_check_perplexity kenlm_model perplexity_cutoff
  = Filtering.filtering langs_id sentence cond_check_empty
      strip_characters cond_check_special_characters special_characters
      special_characters_cutoff cond_check_stopwords stopwords
      stopwords_min_cutoff stopwords_max_cutoff cond_check_badwords badwords
      badwords_cutoff cond_check_lang_id lang_oscar_id model_lang_id
      lang_id_cutoff cond_check_perplexity kenlm_model perplexity_cutoff.
Proof.
  intros Hperplexity.
  unfold Filtering.filtering, Filtering.check_empty,
    Filtering.check_special_characters, Filtering.check_stopwords,
    Filtering.check_badwords, Filtering.check_lang_id,
    ModifyingSentences.get_words_from_sentence.
  rewrite lower_strip_sentence_strip.
  destruct Hperplexity as [-> | ->]; reflexivity.
Qed.

Lemma filtering_strip_witness :
  filtering_xx (PyStr.strip "  aa !!  ") false = filtering_xx "  aa !!  " false.
Proof.
  apply (filtering_strip (PF := R_PyFloat)). by left.
Defined.

(** The score does depend on outer whitespace: a trailing newline adds a
    line, hence one to the token total. *)
Example get_perplexity_score_trailing_newline_ex :
  let kenlm_model : KenLM R := {| score line := (-1)%R |} in
  Filtering.get_perplexity_score (String "a" (String PyStr.newline ""))
    kenlm_model
  = Ret (Rpower 10 (2 / 3))
  ∧ Filtering.get_perplexity_score "a" kenlm_model = Ret (Rpower 10 (1 / 2)).
Proof.
  intros kenlm_model. rewrite !get_perplexity_score_value.
  change (PyStr.split PyStr.newline (String "a" (String PyStr.newline "")))
    with ["a"; ""].
  change (PyStr.split PyStr.newline "a") with ["a"].
  change (foldr Z.add 0%Z (padded_lengths ["a"; ""])) with 3%Z.
  change (foldr Z.add 0%Z (padded_lengths ["a"])) with 2%Z.
  unfold float_pow10, fsum. simpl.
  split; f_equal; f_equal; lra.
Qed.

(** ** More on the single checks *)

Lemma prefix_nil (s : string) : String.prefix "" s = true.
Proof. by destruct s. Qed.

Lemma replace_char_free (old new : ascii) (s : string) :
  old ≠ new →
  PyStr.mem_char old (PyStr.replace (String old "") (String new "") s)
  = false.
Proof.
  intros Hne. unfold PyStr.replace.
  induction s as [|c s IH]; [reflexivity|].
  simpl. destruct (ascii_dec old c) as [<-|Hc].
  - rewrite prefix_nil, append_cons.
    change ("" +:+ ?x) with x. simpl.
    rewrite IH, orb_false_r. by apply Ascii.eqb_neq.
  - simpl. rewrite IH, orb_false_r. by apply Ascii.eqb_neq.
Qed.

Lemma replace_newline_free (s : string) :
  PyStr.mem_char PyStr.newline
    (PyStr.replace (String PyStr.newline "") " " s) = false.
Proof. by apply replace_char_free. Qed.

Lemma oscar_id_of_fasttext_id_unmapped (langs_id : list LangRow)
    (fid : string) :
  Forall (λ row, fasttext_id row ≠ Some fid) langs_id ↔
  Filtering.oscar_id_of_fasttext_id langs_id fid = Raise IndexError.
Proof.
  unfold Filtering.oscar_id_of_fasttext_id.
  induction langs_id as [|row rows IH]; simpl; [done|].
  destruct (decide (fasttext_id row = Some fid)) as [Hrow|Hrow].
  - rewrite bool_decide_eq_true_2 by exact Hrow.
    split; [|done]. intros [Hne _]%Forall_cons_1. done.
  - rewrite bool_decide_eq_false_2 by exact Hrow. rewrite <- IH.
    split; [by intros [_ Hrows]%Forall_cons_1 | by constructor].
Qed.

Lemma oscar_id_of_fasttext_id_first (before : list LangRow) (row : LangRow)
    (after : list LangRow) (fid : string) :
  Forall (λ row, fasttext_id row ≠ Some fid) before →
  fasttext_id row = Some fid →
  Filtering.oscar_id_of_fasttext_id (before ++ row :: after) fid
  = Ret (oscar_id row).
Proof.
  unfold Filtering.oscar_id_of_fasttext_id.
  intros Hbefore Hrow. induction Hbefore as [|r before Hr _ IH]; simpl.
  - by rewrite bool_decide_eq_true_2.
  - by rewrite bool_decide_eq_false_2.
Qed.

Lemma count_chars_in_le (chars s : string) :
  (count_chars_in chars s ≤ String.length s)%nat.
Proof.
  induction s as [|c s IH]; simpl; [done|].
  destruct (PyStr.mem_char c chars); lia.
Qed.

Lemma count_in_lexicon_le (lexicon : gset string) (words : list string) :
  (count_in_lexicon lexicon words ≤ length words)%nat.
Proof.
  induction words as [|w ws IH]; simpl; [done|].
  destruct (decide (w ∈ lexicon)); lia.
Qed.

Lemma ratio_bounds (k L : nat) :
  (k ≤ L)%nat → (0 < L)%nat →
  (0 <= IZR (Z.of_nat k) / IZR (Z.of_nat L) <= 1)%R.
Proof.
  intros Hk HL.
  assert (0 <= IZR (Z.of_nat k))%R as H0 by (apply IZR_le; lia).
  assert (IZR (Z.of_nat k) <= IZR (Z.of_nat L))%R as H1
    by (apply IZR_le; lia).
  assert (0 < IZR (Z.of_nat L))%R as H2 by (apply IZR_lt; lia).
  split.
  - apply Rle_mult_inv_pos; assumption.
  - apply Rmult_le_reg_r with (IZR (Z.of_nat L)); [assumption|].
    unfold Rdiv. rewrite Rmult_assoc, Rinv_l by lra. lra.
Qed.

(** X8. With a model, [Filtering.check_lang_id] looks the predicted label,
    without its [__label__] prefix, up in [langs_id]: when no row has it as
    fastText id the check raises [IndexError]; otherwise the first such row
    decides, and the check passes iff that row's OSCAR id is the expected
    one and the confidence is strictly above the cutoff. *)
Theorem check_lang_id_with_model {F : Type} {PF : PyFloat F}
    (langs_id : list LangRow)
    (sentence strip_characters lang_oscar_id : string)
    (model : FastText F) (lang_id_cutoff : F) :
  let words :=
    ModifyingSentences.get_words_from_sentence sentence strip_characters in
  let sent :=
    PyStr.replace (String PyStr.newline "") " " (PyStr.join " " words) in
  let label := PyStr.replace "__label__" "" (predict model sent).1 in
  let score_pred := (predict model sent).2 in
  let result :=
    Filtering.check_lang_id langs_id sentence strip_characters lang_oscar_id
      (Some model) lang_id_cutoff in
  (Forall (λ row, fasttext_id row ≠ Some label) langs_id ↔
   result = Raise IndexError)
  ∧ ∀ before row after,
      langs_id = (before ++ row :: after)%list →
      Forall (λ row, fasttext_id row ≠ Some label) before →
      fasttext_id row = Some label →
      result = Ret (bool_decide (oscar_id row = lang_oscar_id)
                    && flt lang_id_cutoff score_pred).
Proof.
  intros words sent label score_pred result.
  unfold result, Filtering.check_lang_id.
  fold words. fold sent. fold label. fold score_pred.
  split.
  - rewrite oscar_id_of_fasttext_id_unmapped.
    destruct (Filtering.oscar_id_of_fasttext_id langs_id label) as [id|e];
      simpl; [done|]. split; congruence.
  - intros before row after -> Hbefore Hrow.
    by rewrite oscar_id_of_fasttext_id_first.
Qed.

Lemma check_lang_id_with_model_witness :
  let model : FastText R := {| predict text := ("__label__fr", 0.9%R) |} in
  let langs_id :=
    [ {| oscar_id := "en"; fasttext_id := Some "en" |};
      {| oscar_id := "fr"; fasttext_id := Some "fr" |};
      {| oscar_id := "frr"; fasttext_id := Some "fr" |} ] in
  Filtering.check_lang_id langs_id "Bonjour" "" "fr" (Some model) 0.5%R
  = Ret (bool_decide ("fr" = "fr") && Rltb 0.5 0.9).
Proof.
  intros model langs_id.
  pose proof (check_lang_id_with_model (PF := R_PyFloat)
                langs_id "Bonjour" "" "fr" model 0.5%R) as [_ Hfirst].
  apply (Hfirst [ {| oscar_id := "en"; fasttext_id := Some "en" |} ]
                {| oscar_id := "fr"; fasttext_id := Some "fr" |}
                [ {| oscar_id := "frr"; fasttext_id := Some "fr" |} ]).
  - reflexivity.
  - constructor; [discriminate | constructor].
  - reflexivity.
Defined.

(** X9. The text handed to the model's [predict] never contains a newline:
    two models that agree on newline-free texts give the same verdict. *)
Theorem check_lang_id_predicts_without_newline {F : Type} {PF : PyFloat F}
    (langs_id : list LangRow)
    (sentence strip_characters lang_oscar_id : string)
    (model model' : FastText F) (lang_id_cutoff : F) :
  (∀ text, PyStr.mem_char PyStr.newline text = false →
           predict model text = predict model' text) →
  Filtering.check_lang_id langs_id sentence strip_characters lang_oscar_id
    (Some model) lang_id_cutoff
  = Filtering.check_lang_id langs_id sentence strip_characters lang_oscar_id
      (Some model') lang_id_cutoff.
Proof.
  intros Hagree. unfold Filtering.check_lang_id.
  by rewrite Hagree by apply replace_newline_free.
Qed.

Lemma check_lang_id_predicts_without_newline_witness :
  let model : FastText R := {| predict text := ("__label__en", 0.9%R) |} in
  let model' : FastText R :=
    {| predict text :=
         if PyStr.mem_char PyStr.newline text
         then ("__label__fr", 0.1%R) else ("__label__en", 0.9%R) |} in
  Filtering.check_lang_id [] "a" "" "en" (Some model) 0.5%R
  = Filtering.check_lang_id [] "a" "" "en" (Some model') 0.5%R.
Proof.
  intros model model'.
  apply (check_lang_id_predicts_without_newline (PF := R_PyFloat)).
  intros text Htext. unfold model, model'. simpl. by rewrite Htext.
Defined.

(** X10. With a non-empty badword lexicon, [Filtering.check_badwords]
    passes iff the ratio of the tokens in the lexicon to all tokens is
    strictly below the cutoff; a ratio equal to the cutoff fails. *)
Theorem check_badwords_strict_bound {F : Type} {PF : PyFloat F}
    (flt_irrefl : ∀ x : F, flt x x = false)
    (sentence strip_characters : string) (lexicon : gset string)
    (badwords_cutoff : F) :
  lexicon ≠ ∅ →
  let words :=
    ModifyingSentences.get_words_from_sentence sentence strip_characters in
  let ratio :=
    int_truediv (Z.of_nat (count_in_lexicon lexicon words))
                (Z.of_nat (length words)) in
  Filtering.check_badwords sentence strip_characters (Some lexicon)
    badwords_cutoff = Ret (flt ratio badwords_cutoff)
  ∧ Filtering.check_badwords sentence strip_characters (Some lexicon) ratio
    = Ret false.
Proof.
  intros Hne words ratio.
  rewrite !check_badwords_nonempty by exact Hne.
  unfold badwords_by_ratio. fold words. fold ratio.
  by rewrite flt_irrefl.
Qed.

Lemma check_badwords_strict_bound_witness :
  ({["damn"]} : gset string) ≠ ∅
  ∧ Filtering.check_badwords "Damn it" "" (Some {["damn"]}) (IZR 1 / IZR 2)%R
    = Ret false.
Proof.
  assert (({["damn"]} : gset string) ≠ ∅) as Hne by (by vm_compute).
  split; [exact Hne|].
  exact (proj2 (check_badwords_strict_bound (PF := R_PyFloat) Rltb_irrefl
                  "Damn it" "" {["damn"]} 0%R Hne)).
Defined.

Lemma Rltb_lt (x y : R) : Rltb x y = true → (x < y)%R.
Proof. unfold Rltb. by destruct (Rlt_dec x y). Qed.

Lemma Rltb_ge (x y : R) : Rltb x y = false → (y <= x)%R.
Proof. unfold Rltb. destruct (Rlt_dec x y); [done | lra]. Qed.

Lemma R_ratio_below (k L : nat) (c : R) :
  (k ≤ L)%nat → (0 < L)%nat →
  flt (float_of_int 1) c = true →
  flt (int_truediv (Z.of_nat k) (Z.of_nat L)) c = true.
Proof.
  intros Hk HL Hc. apply Rltb_lt in Hc.
  pose proof (ratio_bounds k L Hk HL). apply Rltb_true.
  change (int_truediv ?a ?b) with (IZR a / IZR b)%R.
  change (float_of_int 1) with 1%R in Hc. lra.
Qed.

Lemma R_ratio_not_below (k L : nat) (c : R) :
  (k ≤ L)%nat → (0 < L)%nat →
  flt (float_of_int 0) c = false →
  flt (int_truediv (Z.of_nat k) (Z.of_nat L)) c = false.
Proof.
  intros Hk HL Hc. apply Rltb_ge in Hc.
  pose proof (ratio_bounds k L Hk HL). apply Rltb_false.
  change (int_truediv ?a ?b) with (IZR a / IZR b)%R.
  change (float_of_int 0) with 0%R in Hc. lra.
Qed.

Lemma R_not_below_ratio (k L : nat) (c : R) :
  (k ≤ L)%nat → (0 < L)%nat →
  flt c (float_of_int 1) = false →
  flt c (int_truediv (Z.of_nat k) (Z.of_nat L)) = false.
Proof.
  intros Hk HL Hc. apply Rltb_ge in Hc.
  pose proof (ratio_bounds k L Hk HL). apply Rltb_false.
  change (int_truediv ?a ?b) with (IZR a / IZR b)%R.
  change (float_of_int 1) with 1%R in Hc. lra.
Qed.

(** X11. The special-character ratio is a quotient [k / L] of two ints with
    [0 <= k <= L] and [0 < L].  In every float arithmetic where such a
    quotient is below each number that is above 1 and below no number that
    is not above 0 (so in binary64, where the quotient is correctly rounded
    and lies between 0.0 and 1.0, and in real arithmetic), the check on a
    sentence with non-empty normalized text passes whenever [1 < cutoff]
    and fails whenever [0 < cutoff] is false. *)
Theorem check_special_characters_cutoff_range {F : Type} {PF : PyFloat F}
    (ratio_below : ∀ (k L : nat) (c : F),
       (k ≤ L)%nat → (0 < L)%nat →
       flt (float_of_int 1) c = true →
       flt (int_truediv (Z.of_nat k) (Z.of_nat L)) c = true)
    (ratio_not_below : ∀ (k L : nat) (c : F),
       (k ≤ L)%nat → (0 < L)%nat →
       flt (float_of_int 0) c = false →
       flt (int_truediv (Z.of_nat k) (Z.of_nat L)) c = false)
    (sentence special_characters : string) (cutoff : F) :
  ModifyingSentences.lower_strip_sentence sentence ≠ "" →
  (flt (float_of_int 1) cutoff = true →
   Filtering.check_special_characters sentence special_characters cutoff
   = Ret true)
  ∧ (flt (float_of_int 0) cutoff = false →
     Filtering.check_special_characters sentence special_characters cutoff
     = Ret false).
Proof.
  intros Hne.
  set (sent := ModifyingSentences.lower_strip_sentence sentence) in *.
  assert (0 < String.length sent)%nat as Hlen
    by (destruct sent; [done | simpl; lia]).
  rewrite check_special_characters_value by (fold sent; lia). fold sent.
  pose proof (count_chars_in_le special_characters sent) as Hcount.
  split; intros Hc; f_equal.
  - by apply ratio_below.
  - by apply ratio_not_below.
Qed.

Lemma check_special_characters_cutoff_range_witness :
  ModifyingSentences.lower_strip_sentence "!!!" ≠ ""
  ∧ Filtering.check_special_characters "!!!" "!" 2%R = Ret true.
Proof.
  assert (ModifyingSentences.lower_strip_sentence "!!!" ≠ "") as Hne by done.
  split; [exact Hne|].
  apply (check_special_characters_cutoff_range (PF := R_PyFloat)
           R_ratio_below R_ratio_not_below "!!!" "!" 2%R Hne).
  apply Rltb_true. change (float_of_int 1) with 1%R. lra.
Defined.

(** X12. The stopword and badword ratios are quotients [k / L] of two ints
    with [0 <= k <= L] and [0 < L].  In every float arithmetic where such a
    quotient is below each number above 1, below no number that is not above
    0, and not above any number that is not below 1 (so in binary64 and in
    real arithmetic), with a non-empty lexicon the stopword check rejects
    every sentence when [0 < max_cutoff] is false or [min_cutoff < 1] is
    false, and the badword check accepts every sentence when
    [1 < cutoff]. *)
Theorem lexicon_checks_cutoff_range {F : Type} {PF : PyFloat F}
    (ratio_below : ∀ (k L : nat) (c : F),
       (k ≤ L)%nat → (0 < L)%nat →
       flt (float_of_int 1) c = true →
       flt (int_truediv (Z.of_nat k) (Z.of_nat L)) c = true)
    (ratio_not_below : ∀ (k L : nat) (c : F),
       (k ≤ L)%nat → (0 < L)%nat →
       flt (float_of_int 0) c = false →
       flt (int_truediv (Z.of_nat k) (Z.of_nat L)) c = false)
    (not_below_ratio : ∀ (k L : nat) (c : F),
       (k ≤ L)%nat → (0 < L)%nat →
       flt c (float_of_int 1) = false →
       flt c (int_truediv (Z.of_nat k) (Z.of_nat L)) = false)
    (sentence strip_characters : string) (lexicon : gset string)
    (min_cutoff max_cutoff cutoff : F) :
  lexicon ≠ ∅ →
  ((flt (float_of_int 0) max_cutoff = false
    ∨ flt min_cutoff (float_of_int 1) = false) →
   Filtering.check_stopwords sentence strip_characters (Some lexicon)
     min_cutoff max_cutoff = Ret false)
  ∧ (flt (float_of_int 1) cutoff = true →
     Filtering.check_badwords sentence strip_characters (Some lexicon) cutoff
     = Ret true).
Proof.
  intros Hne.
  rewrite check_stopwords_nonempty, check_badwords_nonempty by exact Hne.
  unfold stopwords_by_ratio, badwords_by_ratio.
  set (words := ModifyingSentences.get_words_from_sentence _ _).
  pose proof (count_in_lexicon_le lexicon words) as Hcount.
  pose proof (get_words_length_pos sentence strip_characters) as Hpos.
  fold words in Hpos.
  split.
  - intros [Hmax|Hmin]; f_equal.
    + rewrite (ratio_not_below _ _ max_cutoff) by done. apply andb_false_r.
    + by rewrite (not_below_ratio _ _ min_cutoff).
  - intros Hc. f_equal. by apply ratio_below.
Qed.

Lemma lexicon_checks_cutoff_range_witness :
  ({["the"]} : gset string) ≠ ∅
  ∧ Filtering.check_stopwords "the end" "" (Some {["the"]}) 1%R 2%R
    = Ret false.
Proof.
  assert (({["the"]} : gset string) ≠ ∅) as Hne by (by vm_compute).
  split; [exact Hne|].
  apply (lexicon_checks_cutoff_range (PF := R_PyFloat)
           R_ratio_below R_ratio_not_below R_not_below_ratio
           "the end" "" {["the"]} 1%R 2%R 0%R Hne).
  right. apply Rltb_false. change (float_of_int 1) with 1%R. lra.
Defined.

(** ** More on [Filtering.filtering] *)

Lemma check_special_characters_raises {F : Type} {PF : PyFloat F}
    (sentence special_characters : string) (cutoff : F) (e : exn) :
  Filtering.check_special_characters sentence special_characters cutoff
  = Raise e →
  e = ZeroDivisionError
  ∧ ModifyingSentences.lower_strip_sentence sentence = "".
Proof.
  unfold Filtering.check_special_characters, len_truediv.
  destruct (ModifyingSentences.lower_strip_sentence sentence); simpl.
  - intros [= <-]. done.
  - discriminate.
Qed.

Lemma check_lang_id_raises {F : Type} {PF : PyFloat F}
    (langs_id : list LangRow)
    (sentence strip_characters lang_oscar_id : string)
    (model_lang_id : option (FastText F)) (cutoff : F) (e : exn) :
  Filtering.check_lang_id langs_id sentence strip_characters lang_oscar_id
    model_lang_id cutoff = Raise e →
  e = IndexError ∧ is_Some model_lang_id.
Proof.
  destruct model_lang_id as [model|]; [|discriminate].
  unfold Filtering.check_lang_id, Filtering.oscar_id_of_fasttext_id.
  destruct (List.filter _ langs_id); simpl; [|discriminate].
  intros [= <-]. by eauto.
Qed.

Section EngineErrors.

Context {F : Type} {PF : PyFloat F}.

Variables (langs_id : list LangRow)
          (sentence : string)
          (cond_check_empty : bool)
          (strip_characters : string)
          (cond_check_special_characters : bool)
          (special_characters : string)
          (special_characters_cutoff : F)
          (cond_check_stopwords : bool)
          (stopwords : option (gset string))
          (stopwords_min_cutoff stopwords_max_cutoff : F)
          (cond_check_badwords : bool)
          (badwords : option (gset string))
          (badwords_cutoff : F)
          (cond_check_lang_id : bool)
          (lang_oscar_id : string)
          (model_lang_id : option (FastText F))
          (lang_id_cutoff : F)
          (cond_check_perplexity : bool)
          (kenlm_model : option (KenLM F))
          (perplexity_cutoff : F).

Local Abbreviation result :=
  (Filtering.filtering langs_id sentence cond_check_empty strip_characters
     cond_check_special_characters special_characters
     special_characters_cutoff cond_check_stopwords stopwords
     stopwords_min_cutoff stopwords_max_cutoff cond_check_badwords badwords
     badwords_cutoff cond_check_lang_id lang_oscar_id model_lang_id
     lang_id_cutoff cond_check_perplexity kenlm_model perplexity_cutoff).

(** X13. [Filtering.filtering] raises in three situations only:
    [ZeroDivisionError], from the special-character check, when that check
    is on, the empty check is off and the normalized text is empty;
    [IndexError], from the language-id check, when that check is on with a
    model whose predicted label is in no row of [langs_id]; and
    [OverflowError], from the perplexity check, when that check is on with a
    KenLM model and the power [10.0 ** x] overflows.  The check that raises
    is the last one called. *)
Theorem filtering_raises (e : exn) :
  result.2 = Raise e →
  (e = ZeroDivisionError
   ∧ cond_check_empty = false ∧ cond_check_special_characters = true
   ∧ ModifyingSentences.lower_strip_sentence sentence = ""
   ∧ last result.1 = Some CheckSpecialCharacters)
  ∨ (e = IndexError
     ∧ cond_check_lang_id = true ∧ is_Some model_lang_id
     ∧ Filtering.check_lang_id langs_id sentence strip_characters
         lang_oscar_id model_lang_id lang_id_cutoff = Raise IndexError
     ∧ last result.1 = Some CheckLangId)
  ∨ (e = OverflowError
     ∧ cond_check_perplexity = true ∧ is_Some kenlm_model
     ∧ Filtering.check_perplexity sentence kenlm_model perplexity_cutoff
       = Raise OverflowError
     ∧ last result.1 = Some CheckPerplexity).
Proof.
  rewrite filtering_run_in_order. intros Hraise.
  apply run_in_order_stopped in Hraise
    as (before & x & after & Heq & Hbefore & Hx & Hv & ->); [|done].
  rewrite last_snoc. unfold check_table in Heq.
  destruct before as [|? before]; simplify_eq/=.
  destruct before as [|? before]; simplify_eq/=.
  { left. apply check_special_characters_raises in Hv as [-> Hempty].
    repeat split; try done.
    apply Forall_cons_1 in Hbefore as [Hb _].
    destruct cond_check_empty; [|reflexivity].
    specialize (Hb eq_refl). simpl in Hb. injection Hb as Hb.
    unfold Filtering.check_empty in Hb. by rewrite Hempty in Hb. }
  destruct before as [|? before]; simplify_eq/=.
  { destruct (check_stopwords_returns sentence strip_characters stopwords
                stopwords_min_cutoff stopwords_max_cutoff) as [b Hb].
    congruence. }
  destruct before as [|? before]; simplify_eq/=.
  { destruct (check_badwords_returns sentence strip_characters badwords
                badwords_cutoff) as [b Hb].
    congruence. }
  destruct before as [|? before]; simplify_eq/=.
  { right. left. pose proof Hv as Hv'.
    apply check_lang_id_raises in Hv' as [-> Hmodel]. done. }
  destruct before as [|? before]; simplify_eq/=.
  { right. right. pose proof Hv as Hv'.
    apply check_perplexity_raises in Hv' as [-> Hmodel]. done. }
  destruct before; discriminate.
Qed.

(** X14. With the empty check off and the special-character check on, a
    sentence whose normalized text is empty makes [Filtering.filtering]
    raise [ZeroDivisionError] in its first call. *)
Theorem filtering_unguarded_division :
  cond_check_empty = false →
  cond_check_special_characters = true →
  ModifyingSentences.lower_strip_sentence sentence = "" →
  result = ([CheckSpecialCharacters], Raise ZeroDivisionError).
Proof.
  intros -> -> Hempty. rewrite filtering_run_in_order.
  unfold check_table. simpl. unfold verdict. simpl.
  unfold Filtering.check_special_characters. rewrite Hempty. reflexivity.
Qed.

(** X15. Without any resource (no stopword or badword lexicon, no
    language-id model, no KenLM model) the verdict of [Filtering.filtering]
    is the one it has with those four checks switched off: it is decided by
    the empty and the special-character checks. *)
Theorem filtering_without_resources :
  stopwords = None → badwords = None →
  model_lang_id = None → kenlm_model = None →
  result.2
  = (Filtering.filtering langs_id sentence cond_check_empty strip_characters
       cond_check_special_characters special_characters
       special_characters_cutoff false stopwords
       stopwords_min_cutoff stopwords_max_cutoff false badwords
       badwords_cutoff false lang_oscar_id model_lang_id
       lang_id_cutoff false kenlm_model perplexity_cutoff).2.
Proof.
  intros -> -> -> ->. rewrite !filtering_run_in_order.
  unfold check_table. simpl. unfold verdict. simpl.
  destruct cond_check_empty, cond_check_special_characters,
    cond_check_stopwords, cond_check_badwords, cond_check_lang_id,
    cond_check_perplexity,
    (Filtering.check_empty sentence strip_characters),
    (Filtering.check_special_characters
       sentence special_characters special_characters_cutoff)
    as [[|]|]; reflexivity.
Qed.

End EngineErrors.

Lemma filtering_raises_witness :
  (Filtering.filtering [] "  " false "" true "!" 1%R false None 0%R 1%R
     false None 1%R false "xx" None 0%R false None 0%R).2
  = Raise ZeroDivisionError
  ∧ ModifyingSentences.lower_strip_sentence "  " = "".
Proof.
  assert ((Filtering.filtering [] "  " false "" true "!" 1%R false None
             0%R 1%R false None 1%R false "xx" None 0%R false None 0%R).2
          = Raise ZeroDivisionError) as Hraise by reflexivity.
  split; [exact Hraise|].
  destruct (filtering_raises (PF := R_PyFloat) _ _ _ _ _ _ _ _ _ _ _ _ _ _
              _ _ _ _ _ _ _ _ Hraise)
    as [(_ & _ & _ & Hempty & _) | [(Hindex & _) | (Hoverflow & _)]];
    [exact Hempty | discriminate | discriminate].
Defined.

Lemma filtering_unguarded_division_witness :
  Filtering.filtering [] "  " false "" true "!" 1%R false None 0%R 1%R
    false None 1%R false "xx" None 0%R false None 0%R
  = ([CheckSpecialCharacters], Raise ZeroDivisionError).
Proof.
  by apply (filtering_unguarded_division (PF := R_PyFloat)).
Defined.

Lemma filtering_without_resources_witness :
  (Filtering.filtering [] "aa !!" true "" true "!" 1%R true None 0%R 1%R
     true None 1%R true "xx" None 0%R true None 0%R).2
  = (Filtering.filtering [] "aa !!" true "" true "!" 1%R false None 0%R 1%R
       false None 1%R false "xx" None 0%R false None 0%R).2.
Proof.
  by apply (filtering_without_resources (PF := R_PyFloat)).
Defined.

(** ** The parameter table and [FuncOscarFiltering] *)

(** X16. [load_parameters] fails, with [KeyError], exactly when the table has
    neither the language nor ["default"]; otherwise it returns the
    language's entry when there is one and the default entry when not. *)
Theorem load_parameters_fallback {F : Type}
    (parameters_filtering : gmap string (Param F)) (lang_oscar_id : string) :
  (load_parameters parameters_filtering lang_oscar_id = Raise KeyError ↔
   parameters_filtering !! lang_oscar_id = None
   ∧ parameters_filtering !! "default" = None)
  ∧ (∀ param, parameters_filtering !! lang_oscar_id = Some param →
              load_parameters parameters_filtering lang_oscar_id = Ret param)
  ∧ (∀ param, parameters_filtering !! lang_oscar_id = None →
              parameters_filtering !! "default" = Some param →
              load_parameters parameters_filtering lang_oscar_id = Ret param)
  ∧ (∀ e, load_parameters parameters_filtering lang_oscar_id = Raise e →
          e = KeyError).
Proof.
  unfold load_parameters.
  destruct (parameters_filtering !! lang_oscar_id) as [p|].
  - split; [split; [done | by intros [? _]]|].
    split; [by intros ? [= ->]|]. split; done.
  - destruct (parameters_filtering !! "default") as [p|].
    + split; [split; [done | by intros [_ ?]]|].
      split; [done|]. split; [by intros ? _ [= ->] | done].
    + split; [done|]. split; [done|]. split; [done | by intros e [= <-]].
Qed.

Lemma load_parameters_fallback_witness :
  load_parameters ({[ "default" := param_xx ]} : gmap string (Param R)) "af"
  = Ret param_xx.
Proof.
  apply (load_parameters_fallback {[ "default" := param_xx ]} "af");
    reflexivity.
Defined.

Lemma cell_of_language_first {A : Type} (column : LangsIdRow → A)
    (before : list LangsIdRow) (row : LangsIdRow) (after : list LangsIdRow)
    (lang_oscar_id : string) :
  Forall (λ r, oscar_id (columns r) ≠ lang_oscar_id) before →
  oscar_id (columns row) = lang_oscar_id →
  cell_of_language column (before ++ row :: after) lang_oscar_id
  = Ret (column row).
Proof.
  unfold cell_of_language.
  intros Hbefore Hrow. induction Hbefore as [|r before Hr _ IH]; simpl.
  - by rewrite bool_decide_eq_true_2.
  - by rewrite bool_decide_eq_false_2.
Qed.

Lemma cell_of_language_unknown {A : Type} (column : LangsIdRow → A)
    (langs_id : list LangsIdRow) (lang_oscar_id : string) :
  Forall (λ r, oscar_id (columns r) ≠ lang_oscar_id) langs_id →
  cell_of_language column langs_id lang_oscar_id = Raise IndexError.
Proof.
  unfold cell_of_language.
  induction 1 as [|r rows Hr _ IH]; simpl; [reflexivity|].
  by rewrite bool_decide_eq_false_2.
Qed.

(** X17. [FuncOscarFiltering.__init__] raises [IndexError] for a language
    that has no row in [langs_id], whatever the other tables, the loaders
    and the paths are. *)
Theorem init_unknown_language {F : Type}
    (langs_id : list LangsIdRow)
    (stopwords_table badwords_table : gmap string (list string))
    (load_model : string → outcome (FastText F))
    (kenlm_Model : string → outcome (KenLM F))
    (parameters_filtering : gmap string (Param F))
    (lang_oscar_id path_fasttext_model path_kenlm_model : string) :
  Forall (λ r, oscar_id (columns r) ≠ lang_oscar_id) langs_id →
  FuncOscarFiltering.init langs_id stopwords_table badwords_table load_model
    kenlm_Model parameters_filtering lang_oscar_id path_fasttext_model
    path_kenlm_model
  = Raise IndexError.
Proof.
  intros Hunknown. unfold FuncOscarFiltering.init.
  rewrite (cell_of_language_unknown nltk_id) by exact Hunknown.
  reflexivity.
Qed.

Lemma init_unknown_language_witness :
  FuncOscarFiltering.init
    [ {| columns := {| oscar_id := "en"; fasttext_id := Some "en" |};
         nltk_id := Some "english"; badwords_id := None;
         kenlm_id := None |} ]
    ∅ ∅ (λ _, Raise KeyError) (λ _, Raise KeyError)
    ({[ "default" := param_xx ]} : gmap string (Param R)) "xx" "" ""
  = Raise IndexError.
Proof.
  apply init_unknown_language. constructor; [discriminate | constructor].
Defined.

(** X18. For a language whose row in [langs_id] has no NLTK, badwords,
    fastText or KenLM id, [FuncOscarFiltering.__init__] binds no resource:
    it reads no lexicon and calls no loader, whatever they contain or would
    do, and succeeds as soon as the parameter table has the language or a
    default. *)
Theorem init_without_ids {F : Type}
    (before : list LangsIdRow) (row : LangsIdRow) (after : list LangsIdRow)
    (stopwords_table badwords_table : gmap string (list string))
    (load_model : string → outcome (FastText F))
    (kenlm_Model : string → outcome (KenLM F))
    (parameters_filtering : gmap string (Param F))
    (lang_oscar_id path_fasttext_model path_kenlm_model : string)
    (param : Param F) :
  Forall (λ r, oscar_id (columns r) ≠ lang_oscar_id) before →
  oscar_id (columns row) = lang_oscar_id →
  truthy_cell (nltk_id row) = false →
  truthy_cell (badwords_id row) = false →
  truthy_cell (fasttext_id (columns row)) = false →
  truthy_cell (kenlm_id row) = false →
  load_parameters parameters_filtering lang_oscar_id = Ret param →
  FuncOscarFiltering.init (before ++ row :: after) stopwords_table
    badwords_table load_model kenlm_Model parameters_filtering lang_oscar_id
    path_fasttext_model path_kenlm_model
  = Ret {| FuncOscarFiltering.lang_oscar_id := lang_oscar_id;
           FuncOscarFiltering.path_fasttext_model := path_fasttext_model;
           FuncOscarFiltering.path_kenlm_model := path_kenlm_model;
           FuncOscarFiltering.stopwords := None;
           FuncOscarFiltering.badwords := None;
           FuncOscarFiltering.model_lang_id := None;
           FuncOscarFiltering.kenlm_model := None;
           FuncOscarFiltering.param := param |}.
Proof.
  intros Hbefore Hrow Hnltk Hbad Hft Hkenlm Hparam.
  unfold FuncOscarFiltering.init.
  rewrite !(cell_of_language_first _ before row after) by assumption.
  unfold bound_if, mbind, outcome_bind.
  by rewrite Hnltk, Hbad, Hft, Hkenlm, Hparam.
Qed.

Lemma init_without_ids_witness :
  FuncOscarFiltering.init
    [ {| columns := {| oscar_id := "en"; fasttext_id := Some "en" |};
         nltk_id := Some "english"; badwords_id := None;
         kenlm_id := None |};
      {| columns := {| oscar_id := "xx"; fasttext_id := None |};
         nltk_id := Some ""; badwords_id := None; kenlm_id := None |} ]
    ∅ ∅ (λ _, Raise KeyError) (λ _, Raise KeyError)
    ({[ "default" := param_xx ]} : gmap string (Param R)) "xx" "ft" "lm"
  = Ret {| FuncOscarFiltering.lang_oscar_id := "xx";
           FuncOscarFiltering.path_fasttext_model := "ft";
           FuncOscarFiltering.path_kenlm_model := "lm";
           FuncOscarFiltering.stopwords := None;
           FuncOscarFiltering.badwords := None;
           FuncOscarFiltering.model_lang_id := None;
           FuncOscarFiltering.kenlm_model := None;
           FuncOscarFiltering.param := param_xx |}.
Proof.
  apply (init_without_ids
           [ {| columns := {| oscar_id := "en"; fasttext_id := Some "en" |};
                nltk_id := Some "english"; badwords_id := None;
                kenlm_id := None |} ]
           {| columns := {| oscar_id := "xx"; fasttext_id := None |};
              nltk_id := Some ""; badwords_id := None; kenlm_id := None |}
           []);
    try reflexivity.
  constructor; [discriminate | constructor].
Defined.

(** X19. The verdict of [FuncOscarFiltering.__call__] depends on the record
    only through its stripped text: two records whose [text] fields are
    equal after [strip()] get the same verdict, with the same calls,
    whatever their other fields are. *)
Theorem call_depends_on_stripped_text {F : Type} {PF : PyFloat F}
    (langs_id : list LangsIdRow) (self : FuncOscarFiltering.t F)
    (example1 example2 : gmap string value) (text1 text2 : string) :
  example1 !! "text" = Some (VStr text1) →
  example2 !! "text" = Some (VStr text2) →
  PyStr.strip text1 = PyStr.strip text2 →
  FuncOscarFiltering.call langs_id self example1
  = FuncOscarFiltering.call langs_id self example2.
Proof.
  intros H1 H2 Hstrip. unfold FuncOscarFiltering.call.
  by rewrite H1, H2, Hstrip.
Qed.

(** X20. With the empty check on, [FuncOscarFiltering.__call__] drops every
    record whose text is empty or whitespace only, in its first call. *)
Theorem call_drops_blank_text {F : Type} {PF : PyFloat F}
    (langs_id : list LangsIdRow) (self : FuncOscarFiltering.t F)
    (example : gmap string value) (text : string) :
  cond_check_empty (FuncOscarFiltering.param self) = true →
  example !! "text" = Some (VStr text) →
  PyStr.strip text = "" →
  FuncOscarFiltering.call langs_id self example = ([CheckEmpty], Ret false).
Proof.
  intros Hon Htext Hblank. unfold FuncOscarFiltering.call.
  rewrite Htext, Hblank, filtering_run_in_order.
  unfold check_table. simpl. by rewrite Hon.
Qed.

Lemma call_depends_on_stripped_text_witness :
  FuncOscarFiltering.call [] filter_xx
    {[ "id" := VInt 1; "text" := VStr "  aa !!  " ]}
  = FuncOscarFiltering.call [] filter_xx
      {[ "id" := VInt 2; "text" := VStr "aa !!" ]}.
Proof.
  apply (call_depends_on_stripped_text (PF := R_PyFloat) [] filter_xx
           _ _ "  aa !!  " "aa !!"); reflexivity.
Defined.

Lemma call_drops_blank_text_witness :
  FuncOscarFiltering.call [] filter_xx
    {[ "id" := VInt 1; "text" := VStr "   " ]}
  = ([CheckEmpty], Ret false).
Proof.
  apply (call_drops_blank_text (PF := R_PyFloat) [] filter_xx _ "   ");
    reflexivity.
Defined.

(** ** Switching checks off *)

Lemma run_in_order_true (checks : list entry) :
  (run_in_order checks).2 = Ret true → Forall passes_or_disabled checks.
Proof.
  induction checks as [|x checks IH]; simpl; [constructor|].
  destruct (enabled x) eqn:Hx.
  - destruct (verdict x) as [[|]|e] eqn:Hv; simpl; try discriminate.
    destruct (run_in_order checks) as [t o]. simpl in *.
    intros Ho. constructor; [by intros _ | by apply IH].
  - intros Ho. constructor; [|by apply IH].
    intros Hen. congruence.
Qed.

Lemma passes_or_disabled_off (c d : bool) (n : check) (o : outcome bool) :
  passes_or_disabled (c, n, o) → passes_or_disabled (c && d, n, o).
Proof.
  unfold passes_or_disabled, enabled, verdict. simpl.
  intros Hp [Hc _]%andb_true_iff. by apply Hp.
Qed.

(** X21. Switching checks off never turns a kept sentence into a dropped
    one: if [Filtering.filtering] returns [True] under some toggles, it
    returns [True] under any toggles that enable no further check. *)
Theorem filtering_fewer_checks_keeps {F : Type} {PF : PyFloat F}
    (langs_id : list LangRow)
    (sentence : string)
    (cond_check_empty : bool)
    (strip_characters : string)
    (cond_check_special_characters : bool)
    (special_characters : string)
    (special_characters_cutoff : F)
    (cond_check_stopwords : bool)
    (stopwords : option (gset string))
    (stopwords_min_cutoff stopwords_max_cutoff : F)
    (cond_check_badwords : bool)
    (badwords : option (gset string))
    (badwords_cutoff : F)
    (cond_check_lang_id : bool)
    (lang_oscar_id : string)
    (model_lang_id : option (FastText F))
    (lang_id_cutoff : F)
    (cond_check_perplexity : bool)
    (kenlm_model : option (KenLM F))
    (perplexity_cutoff : F)
    (on1 on2 on3 on4 on5 on6 : bool) :
  (Filtering.filtering langs_id sentence cond_check_empty strip_characters
     cond_check_special_characters special_characters
     special_characters_cutoff cond_check_stopwords stopwords
     stopwords_min_cutoff stopwords_max_cutoff cond_check_badwords badwords
     badwords_cutoff cond_check_lang_id lang_oscar_id model_lang_id
     lang_id_cutoff cond_check_perplexity kenlm_model perplexity_cutoff).2
  = Ret true →
  (Filtering.filtering langs_id sentence (cond_check_empty && on1)
     strip_characters (cond_check_special_characters && on2)
     special_characters special_characters_cutoff
     (cond_check_stopwords && on3) stopwords
     stopwords_min_cutoff stopwords_max_cutoff
     (cond_check_badwords && on4) badwords badwords_cutoff
     (cond_check_lang_id && on5) lang_oscar_id model_lang_id lang_id_cutoff
     (cond_check_perplexity && on6) kenlm_model perplexity_cutoff).2
  = Ret true.
Proof.
  rewrite !filtering_run_in_order. intros Hkept.
  apply run_in_order_true in Hkept. unfold check_table in *.
  rewrite run_in_order_keep; [reflexivity|].
  repeat (apply Forall_cons_1 in Hkept as [? Hkept]).
  repeat (constructor; [by apply passes_or_disabled_off|]).
  constructor.
Qed.

Lemma filtering_fewer_checks_keeps_witness :
  (Filtering.filtering [] "aa bb !" true "" true "!" (1 / 2)%R true None 0%R 1%R
     true None 1%R true "xx" None 0%R true None 0%R).2 = Ret true
  ∧ (Filtering.filtering [] "aa bb !" true "" false "!" (1 / 2)%R true None 0%R
       1%R false None 1%R true "xx" None 0%R false None 0%R).2 = Ret true.
Proof.
  assert ((Filtering.filtering [] "aa bb !" true "" true "!" (1 / 2)%R true None
             0%R 1%R true None 1%R true "xx" None 0%R true None 0%R).2
          = Ret true) as Hkept.
  { assert (Filtering.check_special_characters "aa bb !" "!" (1 / 2)%R
            = Ret true) as Hspecial.
    { change (Filtering.check_special_characters "aa bb !" "!" (1 / 2)%R)
        with (Ret (Rltb (IZR 1 / IZR 7) (1 / 2)) : outcome bool).
      by rewrite Rltb_true by lra. }
    rewrite filtering_run_in_order. unfold check_table.
    cbn [run_in_order enabled verdict name fst snd].
    rewrite Hspecial. reflexivity. }
  split; [exact Hkept|].
  exact (filtering_fewer_checks_keeps (PF := R_PyFloat) _ _ _ _ _ _ _ _ _ _ _
           _ _ _ _ _ _ _ _ _ _ true false true false true false Hkept).
Defined.
